(** * Care Coordinator agent: a shallow embedding of src/agent in Rocq

    The Python agent (src/agent/agent.py, appointment_state.py, config.py) is
    modelled with dynamically typed values ([pyval]), dictionaries as
    association lists in insertion order, exceptions as an explicit
    [outcome], and the agent object as a record threaded through every method.
    The completion provider, the tool handlers and [json.dumps] are external:
    they are section variables, so every theorem holds for all of them.  The
    handlers of src/agent/tools.py are modelled too, over an external query
    service that answers their HTTP requests.
    Strings are Rocq strings whose characters are read as Latin-1 code points. *)

From Stdlib Require Import String Ascii List ZArith Bool Lia.
From Stdlib Require Import DecimalString.
Import ListNotations.
Open Scope string_scope.
Set Warnings "-register-all".

(** ** Python values and exceptions *)

Inductive pyval : Type :=
| PNone
| PBool (b : bool)
| PInt (z : Z)
| PStr (s : string)
| PList (l : list pyval)
| PDict (d : list (string * pyval))
| PFunc (name : string).   (** a Python function object, by its name *)

Definition dict := list (string * pyval).

(** A raised Python exception is carried by its message [str(e)]. *)
Inductive outcome (A : Type) : Type :=
| Ok (x : A)
| Raise (msg : string).
Arguments Ok {A} x.
Arguments Raise {A} msg.

Definition nl : string := String (ascii_of_nat 10) EmptyString.
Definition dquote : ascii := "034"%char.
Definition squote : ascii := "039"%char.

Fixpoint dict_lookup (d : dict) (k : string) : option pyval :=
  match d with
  | [] => None
  | (k', v) :: d' => if String.eqb k k' then Some v else dict_lookup d' k
  end.

Definition dict_mem (d : dict) (k : string) : bool :=
  match dict_lookup d k with Some _ => true | None => false end.

(** [d[k] = v]: an existing key keeps its position, a new key goes last. *)
Fixpoint dict_set (d : dict) (k : string) (v : pyval) : dict :=
  match d with
  | [] => [(k, v)]
  | (k', v') :: d' =>
      if String.eqb k k' then (k', v) :: d' else (k', v') :: dict_set d' k v
  end.

(** Truthiness, as [bool(v)]. *)
Definition truthy (v : pyval) : bool :=
  match v with
  | PNone => false
  | PBool b => b
  | PInt z => negb (Z.eqb z 0)
  | PStr s => negb (String.eqb s EmptyString)
  | PList l => match l with [] => false | _ => true end
  | PDict d => match d with [] => false | _ => true end
  | PFunc _ => true
  end.

Definition is_none (v : pyval) : bool :=
  match v with PNone => true | _ => false end.

(** [v.get(k, default)]; only dictionaries have [.get]. *)
Definition py_get_default (v : pyval) (k : string) (default : pyval)
  : outcome pyval :=
  match v with
  | PDict d => match dict_lookup d k with Some x => Ok x | None => Ok default end
  | _ => Raise "AttributeError: object has no attribute 'get'"
  end.

Definition py_get (v : pyval) (k : string) : outcome pyval :=
  py_get_default v k PNone.

(** [v[k]] with a string key. *)
Definition py_getitem (v : pyval) (k : string) : outcome pyval :=
  match v with
  | PDict d =>
      match dict_lookup d k with
      | Some x => Ok x
      | None => Raise (String squote (k ++ String squote EmptyString))
      end
  | _ => Raise "TypeError: indices must be integers"
  end.

(** [v[0]]. *)
Definition py_index0 (v : pyval) : outcome pyval :=
  match v with
  | PList (x :: _) => Ok x
  | PList [] => Raise "list index out of range"
  | PStr (String c _) => Ok (PStr (String c EmptyString))
  | PStr EmptyString => Raise "string index out of range"
  | PDict _ => Raise "0"
  | _ => Raise "TypeError: object is not subscriptable"
  end.

(** [len(v)]. *)
Definition py_len (v : pyval) : outcome nat :=
  match v with
  | PList l => Ok (length l)
  | PStr s => Ok (String.length s)
  | PDict d => Ok (length d)
  | _ => Raise "TypeError: object has no len()"
  end.

Definition Z_to_string (z : Z) : string :=
  NilEmpty.string_of_int (Z.to_int z).

Fixpoint join (sep : string) (l : list string) : string :=
  match l with
  | [] => EmptyString
  | [x] => x
  | x :: l' => x ++ sep ++ join sep l'
  end.

(** [str(v)], used by the f-strings of the agent; quotes inside a [repr]
    are not escaped. *)
Fixpoint py_repr (v : pyval) : string :=
  match v with
  | PNone => "None"
  | PBool true => "True"
  | PBool false => "False"
  | PInt z => Z_to_string z
  | PStr s => String squote (s ++ String squote EmptyString)
  | PList l => "[" ++ join ", " (map py_repr l) ++ "]"
  | PDict d =>
      "{" ++ join ", "
        (map (fun kv => String squote (fst kv ++ String squote EmptyString)
                        ++ ": " ++ py_repr (snd kv)) d) ++ "}"
  | PFunc f => "<function " ++ f ++ ">"
  end.

Definition py_str (v : pyval) : string :=
  match v with
  | PStr s => s
  | _ => py_repr v
  end.

(** ** Session context and Slot State (appointment_state.py) *)

Module Patient.
Record t : Type := mk {
    id : Z;
    name : string;
    dob : string;
    pcp : string;
    ehr_id : string;
    notes : string;
    insurance : pyval;
    referrals : list pyval;
    appointments : list pyval
  }.
End Patient.

(** [AppointmentBooking]: every optional slot holds a Python value, [PNone]
    while unset. *)
Record AppointmentBooking : Type := mkBooking {
  patient : Patient.t;
  provider_id : pyval;
  provider_name : pyval;
  department_id : pyval;
  location_name : pyval;
  appointment_type : pyval;
  date : pyval;
  appointment_time : pyval;
  notes : pyval
}.

(** [AppointmentBooking(patient=patient)]. *)
Definition new_booking (p : Patient.t) : AppointmentBooking :=
  mkBooking p PNone PNone PNone PNone PNone PNone PNone PNone.

(** [is_complete]: every required field [is not None]; the [patient] field
    has type [Patient] and is never [None]. *)
Definition is_complete (b : AppointmentBooking) : bool :=
  forallb (fun v => negb (is_none v))
    [provider_id b; department_id b; appointment_type b;
     date b; appointment_time b].

(** [missing_fields]: each test is [if not self.<field>]. *)
Definition missing_fields (b : AppointmentBooking) : list string :=
  (if negb (truthy (provider_id b)) then ["provider"] else [])
  ++ (if negb (truthy (department_id b)) then ["location/department"] else [])
  ++ (if negb (truthy (appointment_type b))
      then ["appointment type (NEW/ESTABLISHED)"] else [])
  ++ (if negb (truthy (date b)) then ["date"] else [])
  ++ (if negb (truthy (appointment_time b)) then ["time"] else []).

(** [to_booking_request]. *)
Definition to_booking_request (b : AppointmentBooking) : outcome dict :=
  if negb (is_complete b) then
    Raise ("Cannot create booking request. Missing: "
           ++ py_repr (PList (map PStr (missing_fields b))))
  else
    Ok [("patient_id", PInt (Patient.id (patient b)));
        ("provider_id", provider_id b);
        ("department_id", department_id b);
        ("appointment_type", appointment_type b);
        ("date", date b);
        ("appointment_time", appointment_time b);
        ("notes", if truthy (notes b) then notes b else PStr EmptyString)].

(** Attribute assignments [self.booking.<field> = v]. *)
Definition set_provider_id (v : pyval) (b : AppointmentBooking) :=
  mkBooking (patient b) v (provider_name b) (department_id b) (location_name b)
    (appointment_type b) (date b) (appointment_time b) (notes b).
Definition set_provider_name (v : pyval) (b : AppointmentBooking) :=
  mkBooking (patient b) (provider_id b) v (department_id b) (location_name b)
    (appointment_type b) (date b) (appointment_time b) (notes b).
Definition set_department_id (v : pyval) (b : AppointmentBooking) :=
  mkBooking (patient b) (provider_id b) (provider_name b) v (location_name b)
    (appointment_type b) (date b) (appointment_time b) (notes b).
Definition set_location_name (v : pyval) (b : AppointmentBooking) :=
  mkBooking (patient b) (provider_id b) (provider_name b) (department_id b) v
    (appointment_type b) (date b) (appointment_time b) (notes b).
Definition set_appointment_type (v : pyval) (b : AppointmentBooking) :=
  mkBooking (patient b) (provider_id b) (provider_name b) (department_id b)
    (location_name b) v (date b) (appointment_time b) (notes b).

(** ** The state-update rules (Agent._update_booking_state)

    The method mutates [self.booking] attribute by attribute and may raise
    half way (a missing key, a value without [len]); a small state and
    exception monad over the Slot State keeps the assignments made before
    the exception, as Python does. *)

Definition BookingM (A : Type) : Type :=
  AppointmentBooking -> AppointmentBooking * outcome A.

Definition bret {A} (x : A) : BookingM A := fun b => (b, Ok x).
Definition bbind {A B} (m : BookingM A) (k : A -> BookingM B) : BookingM B :=
  fun b => match m b with
           | (b', Ok x) => k x b'
           | (b', Raise e) => (b', Raise e)
           end.
Definition blift {A} (o : outcome A) : BookingM A := fun b => (b, o).
Definition bassign (f : AppointmentBooking -> AppointmentBooking) : BookingM unit :=
  fun b => (f b, Ok tt).

Notation "x <- m ;; k" := (bbind m (fun x => k))
  (at level 61, m at next level, right associativity).

Definition update_booking_state (tool_name : string) (arguments : dict)
    (result : pyval) : BookingM unit :=
  (* Track provider selection *)
  _ <- (if String.eqb tool_name "get_providers_by_specialty" then
          found <- blift (py_get result "found");;
          if truthy found then
            providers <- blift (py_get_default result "providers" (PList []));;
            n <- blift (py_len providers);;
            if Nat.eqb n 1 then
              provider <- blift (py_index0 providers);;
              pid <- blift (py_getitem provider "id");;
              _ <- bassign (set_provider_id pid);;
              first <- blift (py_getitem provider "first_name");;
              last <- blift (py_getitem provider "last_name");;
              bassign (set_provider_name
                         (PStr ("Dr. " ++ py_str first ++ " " ++ py_str last)))
            else bret tt
          else bret tt
        else bret tt);;
  (* Track location selection *)
  _ <- (if String.eqb tool_name "get_provider_locations" then
          found <- blift (py_get result "found");;
          if truthy found then
            locations <- blift (py_get_default result "locations" (PList []));;
            n <- blift (py_len locations);;
            if Nat.eqb n 1 then
              location <- blift (py_index0 locations);;
              did <- blift (py_getitem location "department_id");;
              _ <- bassign (set_department_id did);;
              lname <- blift (py_getitem location "location_name");;
              bassign (set_location_name lname)
            else bret tt
          else bret tt
        else bret tt);;
  (* Track appointment type determination *)
  _ <- (if String.eqb tool_name "check_appointment_history" then
          t <- blift (py_get result "appointment_type");;
          bassign (set_appointment_type t)
        else bret tt);;
  (* Track successful booking: the condition is evaluated, the body is [pass] *)
  (if String.eqb tool_name "book_appointment" then
     _ <- blift (py_get result "success");; bret tt
   else bret tt).

(** ** Transcript, external calls and the agent object *)

Inductive Role : Type := System | User | Assistant.

Record message : Type := mkMessage { role : Role; content : string }.

(** Ghost record of every external call the agent makes: a completion
    request with the transcript it is given, or a call of a Python function
    (tool handler) with its keyword arguments and the Slot State at the
    time of the call.  It also serves as the external world: the provider
    and the handlers may answer differently depending on it. *)
Inductive event : Type :=
| EvProvider (transcript : list message)
| EvCall (fname : string) (kwargs : dict) (at_state : AppointmentBooking).

Record tool_call : Type := mkToolCall { tc_name : string; tc_arguments : dict }.

Record Agent : Type := mkAgent {
  agent_patient : Patient.t;          (** [self.patient] *)
  booking : AppointmentBooking;       (** [self.booking] *)
  model : string;                     (** [self.model] *)
  messages : list message;            (** [self.messages] *)
  tool_map : dict;                    (** [self.tool_map] *)
  iteration_count : nat;              (** [self.iteration_count] *)
  trace : list event                  (** external calls, newest first *)
}.

Definition set_booking (b : AppointmentBooking) (a : Agent) : Agent :=
  mkAgent (agent_patient a) b (model a) (messages a) (tool_map a)
    (iteration_count a) (trace a).
Definition append_message (m : message) (a : Agent) : Agent :=
  mkAgent (agent_patient a) (booking a) (model a) (messages a ++ [m])
    (tool_map a) (iteration_count a) (trace a).
Definition set_iteration_count (n : nat) (a : Agent) : Agent :=
  mkAgent (agent_patient a) (booking a) (model a) (messages a) (tool_map a)
    n (trace a).
Definition log_event (e : event) (a : Agent) : Agent :=
  mkAgent (agent_patient a) (booking a) (model a) (messages a) (tool_map a)
    (iteration_count a) (e :: trace a).

(** ** Text primitives: Python string methods and regex character classes
    over Latin-1 characters *)

(** [\w] of Python's [re] on [str]: alphanumeric characters and [_]. *)
Definition is_word (c : ascii) : bool :=
  let n := nat_of_ascii c in
  (((48 <=? n) && (n <=? 57)) || ((65 <=? n) && (n <=? 90))
  || ((97 <=? n) && (n <=? 122)) || (n =? 95)
  || (n =? 170) || (n =? 178) || (n =? 179) || (n =? 181) || (n =? 185)
  || (n =? 186) || ((188 <=? n) && (n <=? 190))
  || ((192 <=? n) && (n <=? 214)) || ((216 <=? n) && (n <=? 246))
  || ((248 <=? n) && (n <=? 255)))%nat.

(** [str.isspace]. *)
Definition is_space (c : ascii) : bool :=
  let n := nat_of_ascii c in
  (((9 <=? n) && (n <=? 13)) || ((28 <=? n) && (n <=? 32))
   || (n =? 133) || (n =? 160))%nat.

(** Decimal digits accepted by [int()]. *)
Definition is_digit (c : ascii) : bool :=
  let n := nat_of_ascii c in ((48 <=? n) && (n <=? 57))%nat.

Definition digit_value (c : ascii) : Z := Z.of_nat (nat_of_ascii c - 48)%nat.

(** [str.lower]. *)
Definition lower_char (c : ascii) : ascii :=
  let n := nat_of_ascii c in
  if (((65 <=? n) && (n <=? 90)) || ((192 <=? n) && (n <=? 214))
      || ((216 <=? n) && (n <=? 222)))%nat
  then ascii_of_nat (n + 32)%nat else c.

Fixpoint lower (s : string) : string :=
  match s with
  | EmptyString => EmptyString
  | String c s' => String (lower_char c) (lower s')
  end.

(** [p in s]. *)
Fixpoint contains (p s : string) : bool :=
  String.prefix p s
  || match s with
     | EmptyString => false
     | String _ s' => contains p s'
     end.

Fixpoint lstrip (s : string) : string :=
  match s with
  | String c s' => if is_space c then lstrip s' else s
  | EmptyString => EmptyString
  end.

Fixpoint string_rev (s : string) : string :=
  match s with
  | EmptyString => EmptyString
  | String c s' => string_rev s' ++ String c EmptyString
  end.

Definition rstrip (s : string) : string := string_rev (lstrip (string_rev s)).

(** [str.strip()]. *)
Definition strip (s : string) : string := rstrip (lstrip s).

Definition startswith (c : ascii) (s : string) : bool :=
  match s with
  | String c' _ => Ascii.eqb c c'
  | EmptyString => false
  end.

Definition endswith (c : ascii) (s : string) : bool :=
  startswith c (string_rev s).

Fixpoint drop_last (s : string) : string :=
  match s with
  | EmptyString => EmptyString
  | String _ EmptyString => EmptyString
  | String c s' => String c (drop_last s')
  end.

(** [s[1:-1]]. *)
Definition slice_1_m1 (s : string) : string :=
  match s with
  | EmptyString => EmptyString
  | String _ s' => drop_last s'
  end.

(** The longest prefix whose characters satisfy [f], and the rest. *)
Fixpoint span (f : ascii -> bool) (s : string) : string * string :=
  match s with
  | String c s' =>
      if f c then let (w, r) := span f s' in (String c w, r)
      else (EmptyString, s)
  | EmptyString => (EmptyString, EmptyString)
  end.

(** The text before the first occurrence of [pat] and the text after it. *)
Fixpoint split_at_first (pat s : string) : option (string * string) :=
  if String.prefix pat s then
    Some (EmptyString, String.substring (String.length pat)
                         (String.length s - String.length pat) s)
  else match s with
       | EmptyString => None
       | String c s' =>
           match split_at_first pat s' with
           | Some (before, after) => Some (String c before, after)
           | None => None
           end
       end.

(** [int(s)] on a [str]: surrounding whitespace, an optional sign, decimal
    digits with single underscores between digits. *)
Fixpoint int_digits_tail (acc : Z) (s : string) : option Z :=
  match s with
  | EmptyString => Some acc
  | String c s' =>
      if is_digit c then int_digits_tail (acc * 10 + digit_value c)%Z s'
      else if Ascii.eqb c "_"%char then
        match s' with
        | String d s'' =>
            if is_digit d then int_digits_tail (acc * 10 + digit_value d)%Z s''
            else None
        | EmptyString => None
        end
      else None
  end.

Definition int_digits (s : string) : option Z :=
  match s with
  | String c s' => if is_digit c then int_digits_tail (digit_value c) s' else None
  | EmptyString => None
  end.

Definition py_int (s : string) : option Z :=
  match strip s with
  | String c s' =>
      if Ascii.eqb c "+"%char then int_digits s'
      else if Ascii.eqb c "-"%char then option_map Z.opp (int_digits s')
      else int_digits (String c s')
  | EmptyString => None
  end.

(** ** Structured-call extractor (Agent._extract_tool_calls) *)

Definition open_tag : string := "<tool_call>".
Definition close_tag : string := "</tool_call>".

(** [re.findall(r'<tool_call>(.*?)</tool_call>', message, re.DOTALL)]: the
    leftmost opening tag that has a closing tag after it, the shortest body
    up to that closing tag, then the search resumes after the closing tag.
    Every match consumes at least one character, so [String.length message]
    bounds the number of rounds. *)
Fixpoint findall_envelopes_fuel (fuel : nat) (s : string) : list string :=
  match fuel with
  | O => []
  | S fuel' =>
      match split_at_first open_tag s with
      | None => []
      | Some (_, rest) =>
          match split_at_first close_tag rest with
          | None => []
          | Some (body, rest') => body :: findall_envelopes_fuel fuel' rest'
          end
      end
  end.

Definition findall_envelopes (s : string) : list string :=
  findall_envelopes_fuel (String.length s) s.

(** [.*?\)] without DOTALL: the text up to the first [)], provided no newline
    comes before it. *)
Fixpoint lazy_until_paren (s : string) : option string :=
  match s with
  | EmptyString => None
  | String c s' =>
      if Ascii.eqb c ")"%char then Some EmptyString
      else if (nat_of_ascii c =? 10)%nat then None
      else option_map (String c) (lazy_until_paren s')
  end.

(** [re.match(r'(\w+)\((.*?)\)', text)]: groups 1 and 2.  The greedy [\w+]
    can only end where [(] follows, i.e. at the end of the word run. *)
Definition match_call (text : string) : option (string * string) :=
  let (name, rest) := span is_word text in
  match name, rest with
  | String _ _, String c r =>
      if Ascii.eqb c "("%char then
        match lazy_until_paren r with
        | Some args => Some (name, args)
        | None => None
        end
      else None
  | _, _ => None
  end.

Definition not_comma (c : ascii) : bool := negb (Ascii.eqb c ","%char).

(** [re.findall(r'(\w+)=([^,]+)', args_str)]: at a start position the word
    run must be followed by [=] and at least one non-comma character; on
    failure the scan moves one character on, after a match it resumes at
    the end of the match. *)
Fixpoint findall_pairs_fuel (fuel : nat) (s : string) : list (string * string) :=
  match fuel with
  | O => []
  | S fuel' =>
      match s with
      | EmptyString => []
      | String _ s' =>
          let (key, rest) := span is_word s in
          match key, rest with
          | String _ _, String c r =>
              if Ascii.eqb c "="%char then
                let (value, rest') := span not_comma r in
                match value with
                | EmptyString => findall_pairs_fuel fuel' s'
                | _ => (key, value) :: findall_pairs_fuel fuel' rest'
                end
              else findall_pairs_fuel fuel' s'
          | _, _ => findall_pairs_fuel fuel' s'
          end
      end
  end.

Definition findall_pairs (s : string) : list (string * string) :=
  findall_pairs_fuel (String.length s) s.

(** One argument value: strip, remove one pair of matching surrounding
    quotes, then [int(value)] if it succeeds. *)
Definition parse_value (value : string) : pyval :=
  let value := strip value in
  let value :=
    if (startswith dquote value && endswith dquote value)
       || (startswith squote value && endswith squote value)
    then slice_1_m1 value else value in
  match py_int value with
  | Some z => PInt z
  | None => PStr value
  end.

Definition parse_kwargs (args_str : string) : dict :=
  match strip args_str with
  | EmptyString => []
  | _ => fold_left (fun kwargs kv => dict_set kwargs (fst kv) (parse_value (snd kv)))
           (findall_pairs args_str) []
  end.

Definition parse_envelope (body : string) : list tool_call :=
  match match_call (strip body) with
  | Some (func_name, args_str) => [mkToolCall func_name (parse_kwargs args_str)]
  | None => []
  end.

Definition extract_tool_calls (message : string) : list tool_call :=
  flat_map parse_envelope (findall_envelopes message).

(** ** Commit-intent detector (Agent._ready_to_book) *)

Definition booking_phrases : list string :=
  ["book the appointment"; "book this appointment"; "create the appointment";
   "schedule the appointment"; "confirm the booking"; "proceed with booking";
   "<tool_call>book_appointment"].

Definition ready_to_book (message : string) : bool :=
  let message_lower := lower message in
  existsb (fun phrase => contains phrase message_lower) booking_phrases.

(** ** Capability registry (config.py) *)

(** One entry of [TOOLS]:
    [{"type": "function", "function": {"name": .., "description": ..,
      "parameters": {"type": "object", "properties": .., "required": ..}}}]. *)
Definition schema (name description : string) (properties : dict)
    (required : list string) : pyval :=
  PDict [("type", PStr "function");
         ("function",
          PDict [("name", PStr name);
                 ("description", PStr description);
                 ("parameters",
                  PDict [("type", PStr "object");
                         ("properties", PDict properties);
                         ("required", PList (map PStr required))])])].

Definition TOOLS : list pyval := [
  schema "get_providers_by_specialty"
    "Find all providers with a specific specialty (e.g., 'Orthopedics', 'Primary Care', 'Surgery'). Returns list of providers with their IDs, names, and certifications."
    [
      ("specialty", PDict [("type", PStr "string");
         ("description", PStr "The medical specialty to search for")])]
    ["specialty"];
  schema "get_provider_locations"
    "Get all locations where a specific provider works, including addresses, phone numbers, and office hours."
    [
      ("provider_id", PDict [("type", PStr "integer");
         ("description", PStr "The provider's ID number")])]
    ["provider_id"];
  schema "get_available_times"
    "Get available appointment times for a provider at a specific location. Can check a single date or date range. Returns office hours and currently booked times."
    [
      ("provider_id", PDict [("type", PStr "integer");
         ("description", PStr "The provider's ID number")]);
      ("department_id", PDict [("type", PStr "integer");
         ("description", PStr "The department/location ID")]);
      ("start_date", PDict [("type", PStr "string");
         ("description", PStr "This paramater is a date in YYYY-MM-DD format, and can mean two different things. If the end_date (optional, subsequent paramater) is provided, this paramater is the start date of the date range. If the end_date is not provided, this paramater is the single date to check for available times.")]);
      ("end_date", PDict [("type", PStr "string");
         ("description", PStr "Optional end date for checking a range, in YYYY-MM-DD format")])]
    ["provider_id"; "department_id"; "start_date"];
  schema "check_appointment_history"
    "Check if patient has seen a specific provider in the last 5 years. This determines if the appointment should be NEW (patient hasn't seen provider in 5+ years) or ESTABLISHED (patient has seen provider recently). Use this before booking to determine appointment type."
    [
      ("patient_id", PDict [("type", PStr "integer");
         ("description", PStr "The patient's ID number")]);
      ("provider_id", PDict [("type", PStr "integer");
         ("description", PStr "The provider's ID number")])]
    ["patient_id"; "provider_id"];
  schema "check_insurance"
    "Check if a specific insurance is accepted. Returns whether the insurance is accepted and provides list of accepted insurances if not found."
    [
      ("insurance_name", PDict [("type", PStr "string");
         ("description", PStr "The insurance provider name (e.g., 'Aetna', 'Blue Cross')")])]
    ["insurance_name"];
  schema "get_self_pay_rate"
    "Get the self-pay cost for a specific medical specialty if patient is paying out of pocket."
    [
      ("specialty", PDict [("type", PStr "string");
         ("description", PStr "The medical specialty (e.g., 'Primary Care', 'Orthopedics')")])]
    ["specialty"];
  schema "set_patient_insurance"
    "Set or update a patient's insurance. Use this when nurse provides insurance information. If the insurance doesn't exist in our system, it will be added (marked as not accepted). Returns whether the insurance is accepted or if patient will need to self-pay."
    [
      ("patient_id", PDict [("type", PStr "integer");
         ("description", PStr "The patient's ID number")]);
      ("insurance_name", PDict [("type", PStr "string");
         ("description", PStr "The insurance provider name (e.g., 'Aetna', 'Cigna')")])]
    ["patient_id"; "insurance_name"];
  schema "book_appointment"
    "Book an appointment (FINAL ACTION). Only call this once you have confirmed all details with the nurse: provider, location, appointment type (NEW/ESTABLISHED), date, and time. This actually creates the appointment in the system."
    [
      ("patient_id", PDict [("type", PStr "integer");
         ("description", PStr "The patient's ID number")]);
      ("provider_id", PDict [("type", PStr "integer");
         ("description", PStr "The provider's ID number")]);
      ("department_id", PDict [("type", PStr "integer");
         ("description", PStr "The department/location ID")]);
      ("appointment_type", PDict [("type", PStr "string");
         ("description", PStr "Either 'NEW' or 'ESTABLISHED' - must be determined using check_appointment_history first")]);
      ("date", PDict [("type", PStr "string");
         ("description", PStr "Appointment date in YYYY-MM-DD format")]);
      ("appointment_time", PDict [("type", PStr "string");
         ("description", PStr "Appointment time in HH:MM format (24-hour)")]);
      ("notes", PDict [("type", PStr "string");
         ("description", PStr "Optional notes about the appointment")])]
    ["patient_id"; "provider_id"; "department_id"; "appointment_type"; "date"; "appointment_time"];
  schema "query_database"
    "Execute a custom SQL SELECT query for flexibility when other tools don't fit the need. Use this for complex queries or when you need specific information not covered by other tools. Only SELECT queries are allowed."
    [
      ("sql", PDict [("type", PStr "string");
         ("description", PStr "SQL SELECT query to execute")]);
      ("params", PDict [("type", PStr "array");
         ("description", PStr "Optional list of parameters for parameterized query");
         ("items", PDict [("type", PStr "string")])])]
    ["sql"]
].

(** [TOOL_FUNCTIONS]: name to handler function. *)
Definition TOOL_FUNCTIONS : dict :=
  [("get_providers_by_specialty", PFunc "get_providers_by_specialty");
   ("get_provider_locations", PFunc "get_provider_locations");
   ("get_available_times", PFunc "get_available_times");
   ("check_appointment_history", PFunc "check_appointment_history");
   ("check_insurance", PFunc "check_insurance");
   ("get_self_pay_rate", PFunc "get_self_pay_rate");
   ("set_patient_insurance", PFunc "set_patient_insurance");
   ("book_appointment", PFunc "book_appointment");
   ("query_database", PFunc "query_database")].

Definition MAX_ITERATIONS : nat := 10.
Definition WARNING_THRESHOLD : nat := 6.
Definition MODEL : string := "gpt-4".

(** [{tool['name']: tool['function'] for tool in TOOLS}] (agent.py line 36):
    per item the key, then the value, then the insertion.  Keys are strings
    in this dictionary model; another key type is reported as an error. *)
Fixpoint build_tool_map_from (acc : dict) (tools : list pyval) : outcome dict :=
  match tools with
  | [] => Ok acc
  | tool :: rest =>
      match py_getitem tool "name" with
      | Raise e => Raise e
      | Ok (PStr k) =>
          match py_getitem tool "function" with
          | Raise e => Raise e
          | Ok f => build_tool_map_from (dict_set acc k f) rest
          end
      | Ok _ => Raise "non-string key"
      end
  end.

Definition build_tool_map (tools : list pyval) : outcome dict :=
  build_tool_map_from [] tools.

(** The names the schema list declares: [tool['function']['name']]. *)
Definition declared_name (tool : pyval) : option string :=
  match py_getitem tool "function" with
  | Ok f => match py_getitem f "name" with Ok (PStr n) => Some n | _ => None end
  | Raise _ => None
  end.

Definition declared_names : list string :=
  fold_right (fun t acc => match declared_name t with
                           | Some n => n :: acc
                           | None => acc
                           end) [] TOOLS.

(** ** The agent (agent.py): dispatcher, turn controller, reset *)

Definition warning_note : string :=
  "You have made " ++ NilEmpty.string_of_uint (Nat.to_uint WARNING_THRESHOLD)
  ++ " tool calls. Most tasks should complete in 4-8 calls. Reassess your approach and work toward completion.".

Definition max_iterations_message : string :=
  "I've reached the maximum number of actions for this conversation. Let me summarize what we've done so far and we can continue with a fresh start if needed.".

Definition error_result (msg : string) : pyval := PDict [("error", PStr msg)].

Section AgentModel.

(** [openai.chat.completions.create(model=.., messages=..)] followed by
    [.choices[0].message.content], given the calls made so far. *)
Variable openai_create : list event -> string -> list message -> outcome string.
(** A call of the Python function named [f] with keyword arguments. *)
Variable call_function : list event -> string -> dict -> outcome pyval.
(** [json.dumps(result, indent=2)]. *)
Variable json_dumps : pyval -> outcome string.
(** [SYSTEM_PROMPT + "\n\n" + self._build_patient_context()]: no claim depends
    on its text. *)
Variable system_content : Patient.t -> string.

(** [Agent.__init__] once [self.tool_map] has the value [tm]. *)
Definition agent_with_registry (p : Patient.t) (m : string) (tm : dict) : Agent :=
  mkAgent p (new_booking p) m [mkMessage System (system_content p)] tm 0 [].

(** [Agent(patient, model)]: line 36 evaluates the comprehension over [TOOLS]. *)
Definition Agent_init (p : Patient.t) (m : string) : outcome Agent :=
  match build_tool_map TOOLS with
  | Raise e => Raise e
  | Ok tm => Ok (agent_with_registry p m tm)
  end.

(** Calling a value of the tool map. *)
Definition call_value (a : Agent) (f : pyval) (kwargs : dict) : Agent * outcome pyval :=
  match f with
  | PFunc name =>
      (log_event (EvCall name kwargs (booking a)) a,
       call_function (trace a) name kwargs)
  | _ => (a, Raise "TypeError: object is not callable")
  end.

(** [Agent._execute_tool]. *)
Definition execute_tool (a : Agent) (tc : tool_call) : Agent * pyval :=
  let tool_name := tc_name tc in
  let arguments := tc_arguments tc in
  match dict_lookup (tool_map a) tool_name with
  | None => (a, error_result ("Unknown tool: " ++ tool_name))
  | Some tool_function =>
      let (a1, r) := call_value a tool_function arguments in
      match r with
      | Raise e => (a1, error_result ("Tool execution failed: " ++ e))
      | Ok result =>
          let (b', u) := update_booking_state tool_name arguments result (booking a1) in
          let a2 := set_booking b' a1 in
          match u with
          | Ok _ => (a2, result)
          | Raise e => (a2, error_result ("Tool execution failed: " ++ e))
          end
      end
  end.

(** The [for tool_call in tool_calls] loop of [chat]; a failing [json.dumps]
    leaves it through the [except] of [chat]. *)
Fixpoint run_tool_calls (a : Agent) (tool_calls : list tool_call) : Agent * outcome unit :=
  match tool_calls with
  | [] => (a, Ok tt)
  | tc :: rest =>
      let (a1, result) := execute_tool a tc in
      match json_dumps result with
      | Raise e => (a1, Raise e)
      | Ok js =>
          run_tool_calls
            (append_message
               (mkMessage User ("Tool result for " ++ tc_name tc ++ ":" ++ nl ++ js)) a1)
            rest
      end
  end.

(** The completion request of one loop pass. *)
Definition call_openai (a : Agent) : Agent * outcome string :=
  (log_event (EvProvider (messages a)) a,
   openai_create (trace a) (model a) (messages a)).

Definition openai_error (e : string) : string := "Error calling OpenAI: " ++ e.

(** The [while self.iteration_count < MAX_ITERATIONS] loop of [chat].  Each
    pass raises the counter, so [S (MAX_ITERATIONS - iteration_count)] rounds
    of [fuel] always reach the loop test that fails; the [O] case returns
    what that test returns. *)
Fixpoint chat_loop (fuel : nat) (a : Agent) : Agent * string :=
  match fuel with
  | O => (a, max_iterations_message)
  | S fuel' =>
      if Nat.ltb (iteration_count a) MAX_ITERATIONS then
        let a := set_iteration_count (S (iteration_count a)) a in
        let a := if Nat.eqb (iteration_count a) WARNING_THRESHOLD
                 then append_message (mkMessage System warning_note) a else a in
        let (a, response) := call_openai a in
        match response with
        | Raise e => (a, openai_error e)
        | Ok assistant_message =>
            let a := append_message (mkMessage Assistant assistant_message) a in
            if ready_to_book assistant_message then
              if is_complete (booking a) then
                match to_booking_request (booking a) with
                | Raise e => (a, openai_error e)
                | Ok booking_data =>
                    let (a, r) := call_value a (PFunc "book_appointment") booking_data in
                    match r with
                    | Raise e => (a, openai_error e)
                    | Ok result =>
                        match json_dumps result with
                        | Raise e => (a, openai_error e)
                        | Ok js =>
                            chat_loop fuel'
                              (append_message
                                 (mkMessage User ("Booking result:" ++ nl ++ js)) a)
                        end
                    end
                end
              else
                chat_loop fuel'
                  (append_message
                     (mkMessage User ("Cannot book yet. Still need: "
                                      ++ join ", " (missing_fields (booking a)))) a)
            else
              match extract_tool_calls assistant_message with
              | [] => (a, assistant_message)
              | tool_calls =>
                  let (a, r) := run_tool_calls a tool_calls in
                  match r with
                  | Raise e => (a, openai_error e)
                  | Ok _ => chat_loop fuel' a
                  end
              end
        end
      else (a, max_iterations_message)
  end.

(** [Agent.chat]. *)
Definition chat (a : Agent) (user_message : string) : Agent * string :=
  chat_loop (S (MAX_ITERATIONS - iteration_count a))
    (append_message (mkMessage User user_message) a).

(** [Agent.reset_conversation]. *)
Definition reset_conversation (a : Agent) : outcome Agent :=
  match messages a with
  | m0 :: _ =>
      Ok (mkAgent (agent_patient a) (new_booking (agent_patient a)) (model a)
            [m0] (tool_map a) 0 (trace a))
  | [] => Raise "list index out of range"
  end.

End AgentModel.

(** ** Results of the lookup handlers (tools.py)

    The three shapes [get_providers_by_specialty] and
    [get_provider_locations] return, with the rows of their SQL [SELECT]. *)

Record ProviderRow : Type := mkProviderRow {
  pr_id : pyval; pr_first_name : pyval; pr_last_name : pyval;
  pr_certification : pyval; pr_specialty : pyval
}.

(** [SELECT p.id, p.first_name, p.last_name, p.certification, s.name as specialty]. *)
Definition provider_row (r : ProviderRow) : pyval :=
  PDict [("id", pr_id r); ("first_name", pr_first_name r);
         ("last_name", pr_last_name r); ("certification", pr_certification r);
         ("specialty", pr_specialty r)].

Record LocationRow : Type := mkLocationRow {
  lr_department_id : pyval; lr_location_name : pyval; lr_address : pyval;
  lr_phone : pyval; lr_hours : pyval
}.

(** [SELECT d.id as department_id, d.name as location_name, d.address,
    d.phone, d.hours]. *)
Definition location_row (r : LocationRow) : pyval :=
  PDict [("department_id", lr_department_id r); ("location_name", lr_location_name r);
         ("address", lr_address r); ("phone", lr_phone r); ("hours", lr_hours r)].

(** [specialty_result r rows]: [r] is a return value of
    [get_providers_by_specialty] whose candidates are [rows]. *)
Inductive specialty_result : pyval -> list ProviderRow -> Prop :=
| specialty_error : forall msg,
    specialty_result (error_result msg) []
| specialty_not_found : forall msg,
    specialty_result (PDict [("found", PBool false); ("message", PStr msg)]) []
| specialty_found : forall rows,
    rows <> [] ->
    specialty_result
      (PDict [("found", PBool true);
              ("providers", PList (map provider_row rows));
              ("count", PInt (Z.of_nat (length rows)))]) rows.

Inductive location_result : pyval -> list LocationRow -> Prop :=
| location_error : forall msg,
    location_result (error_result msg) []
| location_not_found : forall msg,
    location_result (PDict [("found", PBool false); ("message", PStr msg)]) []
| location_found : forall rows,
    rows <> [] ->
    location_result
      (PDict [("found", PBool true);
              ("locations", PList (map location_row rows));
              ("count", PInt (Z.of_nat (length rows)))]) rows.

(** Slot states reachable from [AppointmentBooking(patient=p)] through the
    state-update rules alone, including the assignments made before an
    exception of the rules. *)
Inductive reachable_by_updates (p : Patient.t) : AppointmentBooking -> Prop :=
| reach_init : reachable_by_updates p (new_booking p)
| reach_update : forall b tool_name arguments result,
    reachable_by_updates p b ->
    reachable_by_updates p (fst (update_booking_state tool_name arguments result b)).

(** A monadic computation keeps a property of the Slot State. *)
Definition preserves {A} (P : AppointmentBooking -> Prop) (m : BookingM A) : Prop :=
  forall b, P b -> P (fst (m b)).

(** ** Concrete sessions *)

Definition sample_patient : Patient.t :=
  Patient.mk 1 "John Doe" "01/01/1975" "Dr. Meredith Grey" "1234abcd"
    EmptyString PNone [] [].


Definition is_provider_event (e : event) : bool :=
  match e with EvProvider _ => true | EvCall _ _ _ => false end.

(** Number of completion requests among the recorded calls. *)
Definition provider_calls (evs : list event) : nat :=
  length (filter is_provider_event evs).

(** A completion provider answering with a fixed script, one response per
    request. *)
Definition scripted_provider (responses : list string)
    : list event -> string -> list message -> outcome string :=
  fun world _ _ =>
    match nth_error responses (provider_calls world) with
    | Some r => Ok r
    | None => Raise "no scripted response"
    end.

(** Handlers that all return the same value. *)
Definition constant_handler (r : pyval) : list event -> string -> dict -> outcome pyval :=
  fun _ _ _ => Ok r.

Definition repr_dumps (v : pyval) : outcome string := Ok (py_repr v).

Definition sample_system_content (p : Patient.t) : string := "system".


(** A Slot State whose provider id is the integer 0. *)
Definition zero_id_booking : AppointmentBooking :=
  mkBooking sample_patient (PInt 0) (PStr "Dr. A B") (PInt 3) (PStr "Main Campus")
    (PStr "NEW") (PStr "2024-06-03") (PStr "14:00") PNone.


(** ** Rendered envelopes: the call syntax the extractor reads

    A message is text interleaved with [<tool_call>...</tool_call>] envelopes.
    A well-formed envelope holds [name(k1=v1, k2=v2, ...)] with an identifier
    name, identifier keys and values written as a double-quoted string, a
    single-quoted string or a bare token; a malformed one holds text with no
    [(]. *)

Fixpoint all_chars (f : ascii -> bool) (s : string) : bool :=
  match s with
  | EmptyString => true
  | String c s' => f c && all_chars f s'
  end.

(** [c not in s]. *)
Definition lacks (c : ascii) (s : string) : bool :=
  all_chars (fun d => negb (Ascii.eqb d c)) s.

(** Texts [t_i] and envelope bodies [b_i], rendered as
    [t_1 <tool_call>b_1</tool_call> t_2 ... tail]. *)
Fixpoint render_segments (segs : list (string * string)) (tail : string) : string :=
  match segs with
  | [] => tail
  | (text, body) :: segs' =>
      text ++ open_tag ++ body ++ close_tag ++ render_segments segs' tail
  end.

(** Characters allowed in a call body: no [)], no newline, no [<]. *)
Definition body_char (c : ascii) : bool :=
  negb (Ascii.eqb c ")") && negb (Nat.eqb (nat_of_ascii c) 10) && negb (Ascii.eqb c "<").

(** Characters allowed in an argument value: those of a body, and no [,]. *)
Definition value_char (c : ascii) : bool :=
  negb (Ascii.eqb c ",") && body_char c.

(** A non-empty run of [\w] characters. *)
Definition is_identifier (s : string) : bool :=
  match s with
  | EmptyString => false
  | String _ _ => all_chars is_word s
  end.

Inductive arg_value : Type :=
| DQuoted (s : string)
| SQuoted (s : string)
| Bare (t : string).

Definition render_value (v : arg_value) : string :=
  match v with
  | DQuoted s => String dquote (s ++ String dquote EmptyString)
  | SQuoted s => String squote (s ++ String squote EmptyString)
  | Bare t => t
  end.

(** [k1=v1, k2=v2, ...]. *)
Fixpoint render_args (kvs : list (string * arg_value)) : string :=
  match kvs with
  | [] => EmptyString
  | (k, v) :: rest =>
      k ++ "=" ++ render_value v
        ++ match rest with [] => EmptyString | _ => ", " ++ render_args rest end
  end.

(** Quoted contents avoid the delimiters; a bare token is non-empty, has no
    surrounding whitespace and does not start with a quote. *)
Definition value_ok (v : arg_value) : bool :=
  match v with
  | DQuoted s | SQuoted s => all_chars value_char s
  | Bare t =>
      match t with
      | EmptyString => false
      | String c _ => negb (Ascii.eqb c dquote) && negb (Ascii.eqb c squote)
      end
      && all_chars value_char t && String.eqb (strip t) t
  end.

(** The integer coercion the extractor applies: [int(s)] if it succeeds,
    else the string. *)
Definition coerce (s : string) : pyval :=
  match py_int s with Some z => PInt z | None => PStr s end.

(** The value the extractor yields for a written value: the quotes removed,
    then the coercion, whether the value was quoted or not. *)
Definition value_of (v : arg_value) : pyval :=
  match v with
  | DQuoted s | SQuoted s => coerce s
  | Bare t => coerce t
  end.


Definition arg_ok (kv : string * arg_value) : bool :=
  is_identifier (fst kv) && value_ok (snd kv).

Fixpoint distinct_keys (ks : list string) : bool :=
  match ks with
  | [] => true
  | k :: ks' => negb (existsb (String.eqb k) ks') && distinct_keys ks'
  end.

(** [name(k1=v1, ...)]. *)
Definition render_call (name : string) (kvs : list (string * arg_value)) : string :=
  name ++ "(" ++ render_args kvs ++ ")".

Inductive envelope : Type :=
| WellFormed (name : string) (kvs : list (string * arg_value))
| Malformed (body : string).

Definition envelope_body (e : envelope) : string :=
  match e with
  | WellFormed name kvs => render_call name kvs
  | Malformed body => body
  end.

Definition envelope_ok (e : envelope) : bool :=
  match e with
  | WellFormed name kvs =>
      is_identifier name && forallb arg_ok kvs && distinct_keys (map fst kvs)
  | Malformed body => lacks "(" body && lacks "<" body
  end.






(** The calls an envelope stands for: one for a well-formed envelope, none
    for a malformed one. *)
Definition expected_calls (e : envelope) : list tool_call :=
  match e with
  | WellFormed name kvs => [mkToolCall name (map (fun kv => (fst kv, value_of (snd kv))) kvs)]
  | Malformed _ => []
  end.




(** ** Measures and sessions used by the properties *)

Definition single_provider_booking : AppointmentBooking :=
  fst (update_booking_state "get_providers_by_specialty" []
         (PDict [("found", PBool true);
                 ("providers", PList [provider_row (mkProviderRow (PInt 7)
                                        (PStr "Ann") (PStr "Lee") (PStr "MD")
                                        (PStr "Orthopedics"))]);
                 ("count", PInt 1)])
         (new_booking sample_patient)).

(** Slot assignments of the two lookup rules. *)
Definition fill_provider (r : ProviderRow) (b : AppointmentBooking) : AppointmentBooking :=
  set_provider_name
    (PStr ("Dr. " ++ py_str (pr_first_name r) ++ " " ++ py_str (pr_last_name r)))
    (set_provider_id (pr_id r) b).

Definition fill_location (r : LocationRow) (b : AppointmentBooking) : AppointmentBooking :=
  set_location_name (lr_location_name r) (set_department_id (lr_department_id r) b).

Definition sample_provider_row : ProviderRow :=
  mkProviderRow (PInt 7) (PStr "Ann") (PStr "Lee") (PStr "MD") (PStr "Orthopedics").
Definition sample_location_row : LocationRow :=
  mkLocationRow (PInt 3) (PStr "Main Campus") (PStr "1 Main St")
    (PStr "555-0100") (PStr "M-F 9-5").

Definition is_warning (m : message) : bool :=
  match role m with
  | System => String.eqb (content m) warning_note
  | _ => false
  end.

(** Number of warning notes among transcript entries. *)
Definition count_warnings (ms : list message) : nat := length (filter is_warning ms).

(** Number of warning notes the passes that take the counter from [c] to
    [c'] inject. *)
Definition warnings_between (c c' : nat) : nat :=
  if Nat.ltb c WARNING_THRESHOLD && Nat.leb WARNING_THRESHOLD c' then 1 else 0.

(** [a'] extends [a]: the transcript and the call record only grow at their
    ends, by [w] warning notes and [p] completion requests. *)
Definition grows (a a' : Agent) (w p : nat) : Prop :=
  exists ms evs,
    messages a' = (messages a ++ ms)%list /\ trace a' = (evs ++ trace a)%list
    /\ count_warnings ms = w /\ provider_calls evs = p.

(** Successive turns of one session, without reset. *)
Definition run_session openai_create call_function json_dumps (a : Agent)
    (user_messages : list string) : Agent :=
  fold_left (fun a m => fst (chat openai_create call_function json_dumps a m))
    user_messages a.

Definition sample_agent : Agent :=
  agent_with_registry sample_system_content sample_patient MODEL TOOL_FUNCTIONS.

(** A provider that requests one lookup and then answers, so that every turn
    makes two loop passes. *)
Definition lookup_then_answer_provider : list event -> string -> list message -> outcome string :=
  fun world _ _ =>
    if Nat.even (provider_calls world) then
      Ok "<tool_call>get_providers_by_specialty(specialty='Orthopedics')</tool_call>"
    else Ok "Which provider would you like?".



(** ** Tool maps without function objects

    Line 36 stores [tool['function']], the schema dictionary of an entry of
    [TOOLS], under each name; calling a dictionary raises [TypeError]. *)








(** ** Views of the agent used by the properties *)

(** What no turn changes: [self.patient], [self.model], [self.tool_map]. *)
Definition frame (a : Agent) : Patient.t * string * dict :=
  (agent_patient a, model a, tool_map a).

(** The agent without its record of external calls. *)
Definition forget_trace (a : Agent) : Agent :=
  mkAgent (agent_patient a) (booking a) (model a) (messages a) (tool_map a)
    (iteration_count a) [].

(** The message the tool loop of [chat] appends for one call. *)
Definition tool_result_message (tc : tool_call) (js : string) : message :=
  mkMessage User ("Tool result for " ++ tc_name tc ++ ":" ++ nl ++ js).

(** The message [chat] appends when a booking is announced too early. *)
Definition cannot_book_note (b : AppointmentBooking) : message :=
  mkMessage User ("Cannot book yet. Still need: " ++ join ", " (missing_fields b)).

(** ** Views of the extractor's argument parsing *)




(** The five required slots, each with the label [missing_fields] gives it. *)
Definition required_slots (b : AppointmentBooking) : list (string * pyval) :=
  [("provider", provider_id b); ("location/department", department_id b);
   ("appointment type (NEW/ESTABLISHED)", appointment_type b);
   ("date", date b); ("time", appointment_time b)].

(** ** Patient.from_api and Agent._build_patient_context *)

(** Sequencing of computations that may raise. *)
Definition obind {A B} (m : outcome A) (k : A -> outcome B) : outcome B :=
  match m with
  | Ok x => k x
  | Raise e => Raise e
  end.

Notation "x <-! m ;; k" := (obind m (fun x => k))
  (at level 61, m at next level, right associativity).

(** [isinstance(v, dict)]. *)
Definition is_dict (v : pyval) : bool :=
  match v with PDict _ => true | _ => false end.

(** The keyword arguments [Patient.from_api] passes to [Patient(...)]; the
    dataclass does not check their types. *)
Record PatientArgs : Type := mkPatientArgs {
  pa_id : pyval; pa_name : pyval; pa_dob : pyval; pa_pcp : pyval; pa_ehr_id : pyval;
  pa_notes : pyval; pa_insurance : pyval; pa_referrals : pyval; pa_appointments : pyval
}.

(** [Patient.from_api]: the arguments in the order Python evaluates them. *)
Definition from_api (data : pyval) : outcome PatientArgs :=
  id <-! py_getitem data "id";;
  name <-! py_getitem data "name";;
  dob <-! py_getitem data "dob";;
  pcp <-! py_get_default data "pcp" (PStr EmptyString);;
  ehr_id <-! py_get_default data "ehrId" (PStr EmptyString);;
  notes <-! py_get_default data "notes" (PStr EmptyString);;
  insurance <-! py_get data "insurance";;
  referrals <-! py_get_default data "referred_providers" (PList []);;
  appointments <-! py_get_default data "appointments" (PList []);;
  Ok (mkPatientArgs id name dob pcp ehr_id notes insurance referrals appointments).

(** The tab character the f-string of [_build_patient_context] indents with. *)
Definition tab : string := String (ascii_of_nat 9) EmptyString.

(** The f-string [context] starts from. *)
Definition context_header (p : Patient.t) : string :=
  nl ++ tab ++ tab ++ "CURRENT PATIENT INFORMATION:" ++ nl
  ++ tab ++ tab ++ "- Name: " ++ Patient.name p ++ nl
  ++ tab ++ tab ++ "- DOB: " ++ Patient.dob p ++ nl
  ++ tab ++ tab ++ "- PCP: " ++ Patient.pcp p ++ nl
  ++ tab ++ tab ++ "- EHR ID: " ++ Patient.ehr_id p ++ nl
  ++ tab ++ tab.

(** The [for ref in self.patient.referrals] loop. *)
Fixpoint render_referrals (context : string) (refs : list pyval) : outcome string :=
  match refs with
  | [] => Ok context
  | ref :: rest =>
      specialty <-! py_get_default ref "specialty" (PStr "Unknown");;
      provider <-! py_get_default ref "provider" (PStr "No specific provider");;
      render_referrals (context ++ "- " ++ py_str specialty ++ ": " ++ py_str provider ++ nl) rest
  end.

(** The [for apt in self.patient.appointments[:5]] loop. *)
Fixpoint render_appointments (context : string) (apts : list pyval) : outcome string :=
  match apts with
  | [] => Ok context
  | apt :: rest =>
      d <-! py_get apt "date";;
      provider <-! py_get apt "provider";;
      status <-! py_get apt "status";;
      render_appointments
        (context ++ "- " ++ py_str d ++ ": " ++ py_str provider
           ++ " (" ++ py_str status ++ ")" ++ nl) rest
  end.

(** [Agent._build_patient_context]. *)
Definition build_patient_context (p : Patient.t) : outcome string :=
  let context := context_header p in
  let context :=
    if truthy (PStr (Patient.notes p))
    then context ++ "- Notes: " ++ Patient.notes p ++ nl else context in
  context <-! (match Patient.referrals p with
               | [] => Ok context
               | refs => render_referrals (context ++ nl ++ "REFERRALS:" ++ nl) refs
               end);;
  match Patient.appointments p with
  | [] => Ok context
  | apts =>
      render_appointments
        (context ++ nl ++ "RECENT APPOINTMENT HISTORY ("
           ++ NilEmpty.string_of_uint (Nat.to_uint (length apts)) ++ " appointments):" ++ nl)
        (firstn 5 apts)
  end.

(** The patient with another appointment list. *)
Definition with_appointments (p : Patient.t) (apts : list pyval) : Patient.t :=
  Patient.mk (Patient.id p) (Patient.name p) (Patient.dob p) (Patient.pcp p)
    (Patient.ehr_id p) (Patient.notes p) (Patient.insurance p) (Patient.referrals p) apts.

(** ** Handlers (tools.py) *)

(** The answer of [requests.post]: [status_code], [text] and [json()], which
    raises on a body that is not JSON. *)
Record Response : Type := mkResponse {
  status_code : Z;
  response_text : string;
  response_json : outcome pyval
}.

(** [requests.post(url, json=payload)]; a raised [requests] exception is a
    [Raise]. *)
Definition Post : Type := string -> pyval -> outcome Response.

Definition API_BASE : string := "http://localhost:5000".

Definition query_url : string := API_BASE ++ "/api/query".

Definition book_url : string := API_BASE ++ "/api/book".

(** A triple-quoted SQL text: a newline, the lines, then the closing
    indentation. *)
Definition sql_text (lines : list string) : string :=
  fold_right (fun l acc => nl ++ l ++ acc) (nl ++ "        ") lines.

Definition providers_sql : string := sql_text [
  "            SELECT p.id, p.first_name, p.last_name, p.certification, s.name as specialty";
  "            FROM providers p";
  "            JOIN specialties s ON p.specialty_id = s.id";
  "            WHERE s.name ILIKE %s"].

Definition locations_sql : string := sql_text [
  "            SELECT ";
  "                d.id as department_id,";
  "                d.name as location_name,";
  "                d.address,";
  "                d.phone,";
  "                d.hours";
  "            FROM provider_departments pd";
  "            JOIN departments d ON pd.department_id = d.id";
  "            WHERE pd.provider_id = %s"].

Definition history_sql : string := sql_text [
  "            SELECT date, status";
  "            FROM appointments";
  "            WHERE patient_id = %s";
  "            AND provider_id = %s";
  "            AND date >= %s";
  "            AND status = 'completed'";
  "            ORDER BY date DESC";
  "            LIMIT 1"].

Definition insurance_sql : string :=
  "SELECT id, name, accepted FROM insurances WHERE name ILIKE %s".

Definition accepted_list_sql : string :=
  "SELECT name FROM insurances WHERE accepted = TRUE".

(** [except Exception as e: return {"error": f"Tool error: {str(e)}"}]. *)
Definition catch_tool_error (o : outcome pyval) : pyval :=
  match o with
  | Ok v => v
  | Raise e => error_result ("Tool error: " ++ e)
  end.

Definition status_is_200 (r : Response) : bool := Z.eqb (status_code r) 200.

(** [for x in v]. *)
Definition py_iter (v : pyval) : outcome (list pyval) :=
  match v with
  | PList l => Ok l
  | PDict d => Ok (map (fun kv => PStr (fst kv)) d)
  | PStr s => Ok (map (fun c => PStr (String c EmptyString)) (list_ascii_of_string s))
  | _ => Raise "TypeError: object is not iterable"
  end.

Fixpoint map_outcome {A B} (f : A -> outcome B) (l : list A) : outcome (list B) :=
  match l with
  | [] => Ok []
  | x :: l' => y <-! f x;; ys <-! map_outcome f l';; Ok (y :: ys)
  end.

Definition get_providers_by_specialty (post : Post) (specialty : pyval) : pyval :=
  catch_tool_error (
    response <-! post query_url (PDict [("sql", PStr providers_sql);
                                         ("params", PList [specialty])]);;
    if negb (status_is_200 response) then
      Ok (error_result ("Failed to query providers: " ++ response_text response))
    else
      data <-! response_json response;;
      providers <-! py_get_default data "results" (PList []);;
      if negb (truthy providers) then
        Ok (PDict [("found", PBool false);
                   ("message", PStr ("No providers found with specialty '"
                                     ++ py_str specialty ++ "'"))])
      else
        n <-! py_len providers;;
        Ok (PDict [("found", PBool true); ("providers", providers);
                   ("count", PInt (Z.of_nat n))])).

Definition get_provider_locations (post : Post) (provider_id : pyval) : pyval :=
  catch_tool_error (
    response <-! post query_url (PDict [("sql", PStr locations_sql);
                                         ("params", PList [provider_id])]);;
    if negb (status_is_200 response) then
      Ok (error_result ("Failed to query locations: " ++ response_text response))
    else
      data <-! response_json response;;
      locations <-! py_get_default data "results" (PList []);;
      if negb (truthy locations) then
        Ok (PDict [("found", PBool false);
                   ("message", PStr ("No locations found for provider ID "
                                     ++ py_str provider_id))])
      else
        n <-! py_len locations;;
        Ok (PDict [("found", PBool true); ("locations", locations);
                   ("count", PInt (Z.of_nat n))])).

(** [five_years_ago] is [(datetime.now() - timedelta(days=5*365)).strftime('%Y-%m-%d')]. *)
Definition check_appointment_history (post : Post) (five_years_ago : string)
    (patient_id provider_id : pyval) : pyval :=
  catch_tool_error (
    response <-! post query_url
                 (PDict [("sql", PStr history_sql);
                         ("params", PList [patient_id; provider_id; PStr five_years_ago])]);;
    if negb (status_is_200 response) then
      Ok (error_result ("Failed to check history: " ++ response_text response))
    else
      data <-! response_json response;;
      appointments <-! py_get_default data "results" (PList []);;
      if truthy appointments then
        first <-! py_index0 appointments;;
        last_visit <-! py_getitem first "date";;
        Ok (PDict [("appointment_type", PStr "ESTABLISHED");
                   ("reason", PStr ("Patient has seen this provider before (last visit: "
                                    ++ py_str last_visit ++ ")"));
                   ("last_visit", last_visit)])
      else
        Ok (PDict [("appointment_type", PStr "NEW");
                   ("reason", PStr "Patient has not seen this provider in the last 5 years (or ever)");
                   ("last_visit", PNone)])).

Definition check_insurance (post : Post) (insurance_name : pyval) : pyval :=
  catch_tool_error (
    response <-! post query_url
                 (PDict [("sql", PStr insurance_sql);
                         ("params", PList [PStr ("%" ++ py_str insurance_name ++ "%")])]);;
    if negb (status_is_200 response) then
      Ok (error_result ("Failed to query insurances: " ++ response_text response))
    else
      data <-! response_json response;;
      results <-! py_get_default data "results" (PList []);;
      if truthy results then
        insurance <-! py_index0 results;;
        accepted <-! py_getitem insurance "accepted";;
        if truthy accepted then
          matched <-! py_getitem insurance "name";;
          shown <-! py_getitem insurance "name";;
          Ok (PDict [("accepted", PBool true); ("matched_name", matched);
                     ("message", PStr ("Yes, " ++ py_str shown ++ " is accepted"))])
        else
          matched <-! py_getitem insurance "name";;
          shown <-! py_getitem insurance "name";;
          Ok (PDict [("accepted", PBool false); ("matched_name", matched);
                     ("message", PStr (py_str shown
                                       ++ " is in our system but is not currently accepted"))])
      else
        list_response <-! post query_url (PDict [("sql", PStr accepted_list_sql)]);;
        accepted_list <-!
          (if status_is_200 list_response then
             list_data <-! response_json list_response;;
             rows <-! py_get_default list_data "results" (PList []);;
             items <-! py_iter rows;;
             names <-! map_outcome (fun ins => py_getitem ins "name") items;;
             Ok (PList names)
           else Ok (PList []));;
        Ok (PDict [("accepted", PBool false);
                   ("message", PStr ("'" ++ py_str insurance_name ++ "' not found in our system"));
                   ("accepted_insurances", accepted_list)])).

(** What [book_appointment] makes of the answer to its request. *)
Definition book_result (answer : outcome Response) : pyval :=
  match
    (response <-! answer;;
     if negb (status_is_200 response) then
       error_data <-! response_json response;;
       err <-! py_get_default error_data "error" (PStr "Booking failed");;
       Ok (PDict [("success", PBool false); ("error", err)])
     else
       data <-! response_json response;;
       success <-! py_get data "success";;
       if truthy success then
         appointment_id <-! py_getitem data "appointment_id";;
         confirmation <-! py_getitem data "confirmation";;
         details <-! py_get_default data "details" (PDict []);;
         Ok (PDict [("success", PBool true); ("appointment_id", appointment_id);
                    ("confirmation", confirmation); ("details", details)])
       else
         err <-! py_get_default data "error" (PStr "Unknown error");;
         Ok (PDict [("success", PBool false); ("error", err)]))
  with
  | Ok v => v
  | Raise e => PDict [("success", PBool false); ("error", PStr ("Tool error: " ++ e))]
  end.

Definition book_appointment (post : Post) (patient_id provider_id department_id
    appointment_type date appointment_time notes : pyval) : pyval :=
  let booking_data :=
    PDict [("patient_id", patient_id); ("provider_id", provider_id);
           ("department_id", department_id); ("appointment_type", appointment_type);
           ("date", date); ("appointment_time", appointment_time); ("notes", notes)] in
  book_result (post book_url booking_data).

(** ** Calling a handler with keyword arguments ([_execute_tool]'s
    [tool_function(...)] with the parsed arguments)

    The parameters of a handler, with their defaults.  CPython binds the
    keywords in their order, failing on the first one the function does not
    declare, then reports the parameters left without a value. *)
Definition params := list (string * option pyval).

Definition nat_to_string (n : nat) : string := NilEmpty.string_of_uint (Nat.to_uint n).

Definition quote_name (n : string) : string := "'" ++ n ++ "'".

(** CPython's [format_missing]: ['a'], ['a' and 'b'], ['a', 'b', and 'c']. *)
Definition format_missing (names : list string) : string :=
  match names with
  | [n] => quote_name n
  | [n1; n2] => quote_name n1 ++ " and " ++ quote_name n2
  | _ =>
      match rev names with
      | last :: rest_rev =>
          join ", " (map quote_name (rev rest_rev)) ++ ", and " ++ quote_name last
      | [] => EmptyString
      end
  end.

(** The local variables of the call: every parameter with its value. *)
Definition bind_args (fname : string) (ps : params) (kwargs : dict) : outcome dict :=
  match find (fun kv => negb (existsb (String.eqb (fst kv)) (map fst ps))) kwargs with
  | Some (k, _) =>
      Raise (fname ++ "() got an unexpected keyword argument '" ++ k ++ "'")
  | None =>
      let missing := filter (fun p => match dict_lookup kwargs (fst p), snd p with
                                      | None, None => true
                                      | _, _ => false
                                      end) ps in
      match missing with
      | [] =>
          Ok (map (fun p => (fst p, match dict_lookup kwargs (fst p), snd p with
                                    | Some v, _ => v
                                    | None, Some default => default
                                    | None, None => PNone
                                    end)) ps)
      | _ =>
          Raise (fname ++ "() missing " ++ nat_to_string (length missing)
                 ++ " required positional argument"
                 ++ (if Nat.eqb (length missing) 1 then EmptyString else "s")
                 ++ ": " ++ format_missing (map fst missing))
      end
  end.

Definition local (locals : dict) (k : string) : pyval :=
  match dict_lookup locals k with Some v => v | None => PNone end.

Definition specialty_params : params := [("specialty", None)].

Definition provider_id_params : params := [("provider_id", None)].

Definition history_params : params := [("patient_id", None); ("provider_id", None)].

Definition insurance_params : params := [("insurance_name", None)].

Definition book_params : params :=
  [("patient_id", None); ("provider_id", None); ("department_id", None);
   ("appointment_type", None); ("date", None); ("appointment_time", None);
   ("notes", Some (PStr EmptyString))].

(** The handlers behind [TOOL_FUNCTIONS], called by name with keyword
    arguments; the answers of the query service and the clock depend on the
    calls made so far.  The handlers not modelled here
    ([get_available_times], [set_patient_insurance], [get_self_pay_rate],
    [query_database]) are left to [other]. *)
Definition tool_functions (post : list event -> Post) (five_years_ago : list event -> string)
    (other : list event -> string -> dict -> outcome pyval)
    : list event -> string -> dict -> outcome pyval :=
  fun world name kwargs =>
    if String.eqb name "get_providers_by_specialty" then
      l <-! bind_args name specialty_params kwargs;;
      Ok (get_providers_by_specialty (post world) (local l "specialty"))
    else if String.eqb name "get_provider_locations" then
      l <-! bind_args name provider_id_params kwargs;;
      Ok (get_provider_locations (post world) (local l "provider_id"))
    else if String.eqb name "check_appointment_history" then
      l <-! bind_args name history_params kwargs;;
      Ok (check_appointment_history (post world) (five_years_ago world)
            (local l "patient_id") (local l "provider_id"))
    else if String.eqb name "check_insurance" then
      l <-! bind_args name insurance_params kwargs;;
      Ok (check_insurance (post world) (local l "insurance_name"))
    else if String.eqb name "book_appointment" then
      l <-! bind_args name book_params kwargs;;
      Ok (book_appointment (post world) (local l "patient_id") (local l "provider_id")
            (local l "department_id") (local l "appointment_type") (local l "date")
            (local l "appointment_time") (local l "notes"))
    else other world name kwargs.


(** A query service answering every request with status 200 and the given
    rows. *)
Definition rows_post (rows : list pyval) : list event -> Post :=
  fun _ _ _ => Ok (mkResponse 200 EmptyString (Ok (PDict [("results", PList rows)]))).

Definition sample_cutoff : list event -> string := fun _ => "2020-01-01".

(** A completed visit. *)
Definition visit (d : string) : pyval :=
  PDict [("date", PStr d); ("provider", PStr "Dr. Lee"); ("status", PStr "completed")].

(** * Properties *)

(** ** Capability registry *)

(** C2: [Agent.__init__] builds its registry with [tool['name']], a key the
    entries of [TOOLS] do not have (their name is under
    [tool['function']['name']]): the comprehension raises [KeyError('name')], so
    constructing an agent fails for every patient and model, while the
    sibling table [TOOL_FUNCTIONS] maps every declared name to its handler. *)
Theorem registry_construction_raises :
  forall (system_content : Patient.t -> string) (p : Patient.t) (m : string),
    build_tool_map TOOLS = Raise "'name'"
    /\ Agent_init system_content p m = Raise "'name'"
    /\ Forall (fun n => dict_lookup TOOL_FUNCTIONS n = Some (PFunc n)) declared_names
    /\ length declared_names = 9%nat.
Proof.
  intros system_content p m.
  assert (Hb : build_tool_map TOOLS = Raise "'name'") by reflexivity.
  split; [exact Hb|].
  split; [unfold Agent_init; rewrite Hb; reflexivity|].
  split; vm_compute; repeat constructor.
Qed.

(** ** Slot State *)

(** [is_complete] and [missing_fields] agree on every Slot State whose
    required slots are each [None] or truthy. *)
Lemma complete_iff_no_missing_when_truthy_or_none (b : AppointmentBooking) :
  Forall (fun v => is_none v = true \/ truthy v = true)
    [provider_id b; department_id b; appointment_type b; date b; appointment_time b] ->
  (is_complete b = true <-> missing_fields b = []).
Proof.
  destruct b as [p pid pn did ln ty d t n]; simpl.
  intros H; inversion_clear H as [|? ? Hp H1]; inversion_clear H1 as [|? ? Hd H2];
    inversion_clear H2 as [|? ? Hty H3]; inversion_clear H3 as [|? ? Hda H4];
    inversion_clear H4 as [|? ? Hti _].
  unfold is_complete, missing_fields; simpl.
  destruct Hp as [Hp|Hp], Hd as [Hd|Hd], Hty as [Hty|Hty], Hda as [Hda|Hda],
    Hti as [Hti|Hti];
  repeat match goal with
         | H : is_none ?v = true |- _ => destruct v; try discriminate H; clear H
         end;
  repeat match goal with
         | H : truthy ?v = true |- _ =>
             let Hv := fresh in
             assert (Hv : is_none v = false) by (destruct v; try discriminate H; reflexivity);
             rewrite Hv; rewrite H; clear H Hv
         end;
  simpl; split; intro E; try discriminate E; reflexivity.
Qed.

(** C3: at the Slot State whose provider id is the integer [0] and whose
    other required slots are set, [is_complete] is true while
    [missing_fields] lists ["provider"]: [is_complete] tests [is not None],
    [missing_fields] tests [not field]. *)
Theorem missing_fields_disagree_on_falsy_slot :
  is_complete zero_id_booking = true
  /\ missing_fields zero_id_booking = ["provider"].
Proof. split; reflexivity. Qed.

(** ** State-update rules *)

Lemma preserves_bret {A} P (x : A) : preserves P (bret x).
Proof. intros b H; exact H. Qed.

Lemma preserves_blift {A} P (o : outcome A) : preserves P (blift o).
Proof. intros b H; exact H. Qed.

Lemma preserves_bassign P f :
  (forall b, P b -> P (f b)) -> preserves P (bassign f).
Proof. intros Hf b H; exact (Hf b H). Qed.

Lemma preserves_bbind {A B} P (m : BookingM A) (k : A -> BookingM B) :
  preserves P m -> (forall x, preserves P (k x)) -> preserves P (bbind m k).
Proof.
  intros Hm Hk b H; unfold bbind.
  specialize (Hm b H).
  destruct (m b) as [b' [x|e]]; simpl in *; [apply Hk|]; exact Hm.
Qed.

Ltac solve_preserves :=
  repeat match goal with
         | |- preserves _ (bbind _ _) => apply preserves_bbind; [|intro]
         | |- preserves _ (if ?c then _ else _) => destruct c
         | |- preserves _ (bassign _) => apply preserves_bassign
         | |- preserves _ (bret _) => apply preserves_bret
         | |- preserves _ (blift _) => apply preserves_blift
         end.

(** The rules never assign [date] or [appointment_time]. *)
Lemma update_preserves_date_time tool_name arguments result :
  preserves (fun b => date b = PNone /\ appointment_time b = PNone)
    (update_booking_state tool_name arguments result).
Proof.
  unfold update_booking_state; solve_preserves;
    intros b H; exact H.
Qed.

(** C10: every Slot State reachable from [AppointmentBooking(patient=p)]
    through the state-update rules alone still has [date] and
    [appointment_time] unset, so [is_complete] is false there. *)
Theorem updates_never_complete (p : Patient.t) (b : AppointmentBooking) :
  reachable_by_updates p b ->
  date b = PNone /\ appointment_time b = PNone /\ is_complete b = false.
Proof.
  intro H.
  assert (Hdt : date b = PNone /\ appointment_time b = PNone).
  { induction H as [|b tool_name arguments result _ IH].
    - split; reflexivity.
    - exact (update_preserves_date_time tool_name arguments result b IH). }
  destruct Hdt as [Hd Ht]; repeat split; try assumption.
  unfold is_complete; rewrite Hd; simpl.
  repeat rewrite andb_false_r; reflexivity.
Qed.

Lemma updates_never_complete_witness :
  reachable_by_updates sample_patient single_provider_booking
  /\ (date single_provider_booking = PNone /\ appointment_time single_provider_booking = PNone
      /\ is_complete single_provider_booking = false).
Proof.
  assert (H : reachable_by_updates sample_patient single_provider_booking)
    by (unfold single_provider_booking; apply reach_update; apply reach_init).
  split; [exact H | apply (updates_never_complete sample_patient single_provider_booking); exact H].
Defined.

(** C4: for every result of the specialty lookup, the rules fill the
    provider slots exactly when it has one candidate, and leave the Slot
    State unchanged for zero or several candidates; likewise the location
    lookup and the department slots.  No exception is raised. *)
Theorem lookup_fills_slot_iff_single_candidate :
  (forall b arguments result rows,
     specialty_result result rows ->
     update_booking_state "get_providers_by_specialty" arguments result b
     = (match rows with [r] => fill_provider r b | _ => b end, Ok tt))
  /\ (forall b arguments result rows,
     location_result result rows ->
     update_booking_state "get_provider_locations" arguments result b
     = (match rows with [r] => fill_location r b | _ => b end, Ok tt)).
Proof.
  split; intros b arguments result rows H.
  - destruct H as [msg|msg|rows Hne]; [reflexivity|reflexivity|].
    destruct rows as [|r [|r2 rest]]; [contradiction Hne; reflexivity| |];
      destruct b; reflexivity.
  - destruct H as [msg|msg|rows Hne]; [reflexivity|reflexivity|].
    destruct rows as [|r [|r2 rest]]; [contradiction Hne; reflexivity| |];
      destruct b; reflexivity.
Qed.

Lemma lookup_fills_slot_iff_single_candidate_witness :
  specialty_result
    (PDict [("found", PBool true); ("providers", PList (map provider_row [sample_provider_row]));
            ("count", PInt (Z.of_nat (length [sample_provider_row])))]) [sample_provider_row]
  /\ location_result
    (PDict [("found", PBool true); ("locations", PList (map location_row [sample_location_row]));
            ("count", PInt (Z.of_nat (length [sample_location_row])))]) [sample_location_row]
  /\ update_booking_state "get_providers_by_specialty" []
       (PDict [("found", PBool true); ("providers", PList (map provider_row [sample_provider_row]));
               ("count", PInt (Z.of_nat (length [sample_provider_row])))])
       (new_booking sample_patient)
     = (fill_provider sample_provider_row (new_booking sample_patient), Ok tt)
  /\ update_booking_state "get_provider_locations" []
       (PDict [("found", PBool true); ("locations", PList (map location_row [sample_location_row]));
               ("count", PInt (Z.of_nat (length [sample_location_row])))])
       (new_booking sample_patient)
     = (fill_location sample_location_row (new_booking sample_patient), Ok tt).
Proof.
  assert (Hs : specialty_result
    (PDict [("found", PBool true); ("providers", PList (map provider_row [sample_provider_row]));
            ("count", PInt (Z.of_nat (length [sample_provider_row])))]) [sample_provider_row])
    by (apply specialty_found; discriminate).
  assert (Hl : location_result
    (PDict [("found", PBool true); ("locations", PList (map location_row [sample_location_row]));
            ("count", PInt (Z.of_nat (length [sample_location_row])))]) [sample_location_row])
    by (apply location_found; discriminate).
  split; [exact Hs|]; split; [exact Hl|]; split.
  - exact (proj1 lookup_fills_slot_iff_single_candidate
             (new_booking sample_patient) [] _ _ Hs).
  - exact (proj2 lookup_fills_slot_iff_single_candidate
             (new_booking sample_patient) [] _ _ Hl).
Defined.

(** ** Tool dispatcher *)

Lemma call_value_booking call_function a f kwargs :
  booking (fst (call_value call_function a f kwargs)) = booking a.
Proof. destruct f; reflexivity. Qed.

(** C8: [execute_tool] is total and returns a value for every name and
    argument map: an unknown name gives the [Unknown tool] error payload, an
    exception of the handler (a wrong argument shape included) or of the
    state-update rules gives the [Tool execution failed] error payload, and
    otherwise the handler's own result is returned. *)
Theorem execute_tool_reduces_failures :
  forall call_function a tc,
    let res := snd (execute_tool call_function a tc) in
    match dict_lookup (tool_map a) (tc_name tc) with
    | None => res = error_result ("Unknown tool: " ++ tc_name tc)
    | Some f =>
        match snd (call_value call_function a f (tc_arguments tc)) with
        | Raise e => res = error_result ("Tool execution failed: " ++ e)
        | Ok r =>
            match snd (update_booking_state (tc_name tc) (tc_arguments tc) r (booking a)) with
            | Raise e => res = error_result ("Tool execution failed: " ++ e)
            | Ok _ => res = r
            end
        end
    end.
Proof.
  intros call_function a tc res; subst res; unfold execute_tool.
  destruct (dict_lookup (tool_map a) (tc_name tc)) as [f|]; [|reflexivity].
  pose proof (call_value_booking call_function a f (tc_arguments tc)) as Hb.
  destruct (call_value call_function a f (tc_arguments tc)) as [a1 [r|e]];
    simpl in *; [|reflexivity].
  rewrite Hb.
  destruct (update_booking_state (tc_name tc) (tc_arguments tc) r (booking a)) as [b' [u|e]];
    reflexivity.
Qed.

(** ** Turn controller *)

Lemma grows_refl a : grows a a 0 0.
Proof. exists [], []; rewrite app_nil_r; repeat split; reflexivity. Qed.

Lemma grows_trans a b c w1 p1 w2 p2 :
  grows a b w1 p1 -> grows b c w2 p2 -> grows a c (w1 + w2) (p1 + p2).
Proof.
  intros (ms1 & evs1 & Hm1 & Ht1 & Hw1 & Hp1) (ms2 & evs2 & Hm2 & Ht2 & Hw2 & Hp2).
  exists (ms1 ++ ms2)%list, (evs2 ++ evs1)%list; repeat split.
  - rewrite Hm2, Hm1, app_assoc; reflexivity.
  - rewrite Ht2, Ht1, app_assoc; reflexivity.
  - unfold count_warnings in *; rewrite filter_app, length_app; lia.
  - unfold provider_calls in *; rewrite filter_app, length_app; lia.
Qed.

Lemma grows_append a m :
  grows a (append_message m a) (if is_warning m then 1 else 0) 0.
Proof.
  exists [m], []; repeat split; simpl.
  unfold count_warnings; simpl; destruct (is_warning m); reflexivity.
Qed.

Lemma grows_log a e :
  grows a (log_event e a) 0 (if is_provider_event e then 1 else 0).
Proof.
  exists [], [e]; rewrite app_nil_r; repeat split; simpl.
  unfold provider_calls; simpl; destruct (is_provider_event e); reflexivity.
Qed.

Lemma grows_append_user a s :
  grows a (append_message (mkMessage User s) a) 0 0.
Proof. exact (grows_append a (mkMessage User s)). Qed.

Lemma grows_append_assistant a s :
  grows a (append_message (mkMessage Assistant s) a) 0 0.
Proof. exact (grows_append a (mkMessage Assistant s)). Qed.

Lemma grows_set_booking a b : grows a (set_booking b a) 0 0.
Proof. exists [], []; rewrite app_nil_r; repeat split; reflexivity. Qed.

Lemma grows_set_count a n : grows a (set_iteration_count n a) 0 0.
Proof. exists [], []; rewrite app_nil_r; repeat split; reflexivity. Qed.

Lemma grows_call_value call_function a f kwargs :
  grows a (fst (call_value call_function a f kwargs)) 0 0
  /\ iteration_count (fst (call_value call_function a f kwargs)) = iteration_count a.
Proof.
  destruct f; simpl; split; try apply grows_refl; try reflexivity.
  apply grows_log.
Qed.

Lemma grows_execute_tool call_function a tc :
  grows a (fst (execute_tool call_function a tc)) 0 0
  /\ iteration_count (fst (execute_tool call_function a tc)) = iteration_count a.
Proof.
  unfold execute_tool.
  destruct (dict_lookup (tool_map a) (tc_name tc)) as [f|];
    [|split; [apply grows_refl | reflexivity]].
  destruct (grows_call_value call_function a f (tc_arguments tc)) as [Hg Hc].
  destruct (call_value call_function a f (tc_arguments tc)) as [a1 [r|e]];
    simpl in *; [|split; assumption].
  destruct (update_booking_state (tc_name tc) (tc_arguments tc) r (booking a1))
    as [b' [u|e]]; simpl;
    (split; [apply (grows_trans _ _ _ 0 0 0 0 Hg (grows_set_booking _ _))
            | exact Hc]).
Qed.

Lemma grows_run_tool_calls call_function json_dumps tcs : forall a,
  grows a (fst (run_tool_calls call_function json_dumps a tcs)) 0 0
  /\ iteration_count (fst (run_tool_calls call_function json_dumps a tcs))
     = iteration_count a.
Proof.
  induction tcs as [|tc rest IH]; intro a; simpl; [split; [apply grows_refl|reflexivity]|].
  destruct (grows_execute_tool call_function a tc) as [Hg Hc].
  destruct (execute_tool call_function a tc) as [a1 result]; simpl in *.
  destruct (json_dumps result) as [js|e]; simpl; [|split; assumption].
  destruct (IH (append_message
                  (mkMessage User ("Tool result for " ++ tc_name tc ++ ":" ++ nl ++ js)) a1))
    as [Hg' Hc'].
  split; [|etransitivity; [exact Hc'|exact Hc]].
  apply (grows_trans _ _ _ 0 0 0 0 Hg).
  apply (grows_trans _ _ _ 0 0 0 0 (grows_append_user _ _) Hg').
Qed.

Lemma grows_eq a b w p w' p' : grows a b w p -> w = w' -> p = p' -> grows a b w' p'.
Proof. intros H -> ->; exact H. Qed.

Lemma warning_note_is_warning : is_warning (mkMessage System warning_note) = true.
Proof. vm_compute; reflexivity. Qed.

Lemma warnings_between_same c : warnings_between c c = 0.
Proof.
  unfold warnings_between.
  destruct (Nat.ltb_spec c WARNING_THRESHOLD), (Nat.leb_spec WARNING_THRESHOLD c);
    simpl; lia.
Qed.

Lemma warnings_between_step c c' :
  S c <= c' ->
  (if Nat.eqb (S c) WARNING_THRESHOLD then 1 else 0) + warnings_between (S c) c'
  = warnings_between c c'.
Proof.
  intro H; unfold warnings_between.
  destruct (Nat.eqb_spec (S c) WARNING_THRESHOLD),
    (Nat.ltb_spec (S c) WARNING_THRESHOLD), (Nat.leb_spec WARNING_THRESHOLD c'),
    (Nat.ltb_spec c WARNING_THRESHOLD); simpl; lia.
Qed.

Ltac grow_chain :=
  repeat match goal with
  | |- grows ?a ?a _ _ => apply (grows_eq _ _ 0 0); [apply grows_refl|lia|lia]
  | |- grows ?a (append_message (mkMessage User _) ?b) _ _ =>
      apply (grows_eq _ _ (0 + 0) (0 + 0)); [|lia|lia];
      apply (grows_trans _ b); [|apply grows_append_user]
  | |- grows ?a (append_message (mkMessage Assistant _) ?b) _ _ =>
      apply (grows_eq _ _ (0 + 0) (0 + 0)); [|lia|lia];
      apply (grows_trans _ b); [|apply grows_append_assistant]
  | |- grows ?a (fst (call_value ?cf ?b ?f ?kw)) _ _ =>
      apply (grows_eq _ _ (0 + 0) (0 + 0)); [|lia|lia];
      apply (grows_trans _ b); [|apply (grows_call_value cf b f kw)]
  | |- grows ?a (fst (run_tool_calls ?cf ?jd ?b ?tcs)) _ _ =>
      apply (grows_eq _ _ (0 + 0) (0 + 0)); [|lia|lia];
      apply (grows_trans _ b); [|apply (grows_run_tool_calls cf jd tcs b)]
  end.

(** One loop pass: it extends the transcript by at most the warning note and
    the call record by one completion request, sets the counter to [S c], and
    then either returns or continues the loop on an extension of that state. *)
Lemma chat_loop_pass openai_create call_function json_dumps fuel a :
  Nat.ltb (iteration_count a) MAX_ITERATIONS = true ->
  exists a3,
    grows a a3 (if Nat.eqb (S (iteration_count a)) WARNING_THRESHOLD then 1 else 0) 1
    /\ iteration_count a3 = S (iteration_count a)
    /\ ((grows a3 (fst (chat_loop openai_create call_function json_dumps (S fuel) a)) 0 0
         /\ iteration_count (fst (chat_loop openai_create call_function json_dumps (S fuel) a))
            = S (iteration_count a))
        \/ exists a4,
             grows a3 a4 0 0 /\ iteration_count a4 = S (iteration_count a)
             /\ chat_loop openai_create call_function json_dumps (S fuel) a
                = chat_loop openai_create call_function json_dumps fuel a4).
Proof.
  intro Hlt.
  set (a1 := set_iteration_count (S (iteration_count a)) a).
  set (a2 := if Nat.eqb (iteration_count a1) WARNING_THRESHOLD
             then append_message (mkMessage System warning_note) a1 else a1).
  set (a3 := log_event (EvProvider (messages a2)) a2).
  assert (Hc3 : iteration_count a3 = S (iteration_count a))
    by (subst a3 a2; simpl; destruct (Nat.eqb _ _); reflexivity).
  exists a3; split; [|split; [exact Hc3|]].
  { apply (grows_eq _ _ (0 + ((if Nat.eqb (S (iteration_count a)) WARNING_THRESHOLD
                                then 1 else 0) + 0)) (0 + (0 + 1))); [|lia|lia].
    apply (grows_trans _ a1); [apply grows_set_count|].
    apply (grows_trans _ a2); [|apply grows_log].
    subst a2; change (iteration_count a1) with (S (iteration_count a)).
    destruct (Nat.eqb (S (iteration_count a)) WARNING_THRESHOLD);
      [eapply grows_eq; [apply grows_append | rewrite warning_note_is_warning | ];
       reflexivity
      | apply grows_refl]. }
  cbn [chat_loop]; rewrite Hlt; cbv beta iota zeta.
  change (set_iteration_count (S (iteration_count a)) a) with a1.
  change (if Nat.eqb (iteration_count a1) WARNING_THRESHOLD
          then append_message (mkMessage System warning_note) a1 else a1) with a2.
  change (call_openai openai_create a2)
    with (a3, openai_create (trace a2) (model a2) (messages a2)).
  cbv beta iota.
  destruct (openai_create (trace a2) (model a2) (messages a2)) as [msg|e];
    [|left; split; simpl; [grow_chain | exact Hc3]].
  destruct (ready_to_book msg).
  - destruct (is_complete (booking (append_message (mkMessage Assistant msg) a3))).
    + destruct (to_booking_request (booking (append_message (mkMessage Assistant msg) a3)))
        as [data|e]; [|left; split; simpl; [grow_chain | exact Hc3]].
      pose proof (grows_call_value call_function
                    (append_message (mkMessage Assistant msg) a3)
                    (PFunc "book_appointment") data) as [Hg Hc].
      destruct (call_value call_function (append_message (mkMessage Assistant msg) a3)
                  (PFunc "book_appointment") data) as [a5 [r|e]]; simpl in Hg, Hc;
        [|left; split; simpl;
          [apply (grows_eq _ _ (0 + 0) (0 + 0)); [|lia|lia];
           apply (grows_trans _ _ _ _ _ _ _ (grows_append_assistant _ _) Hg)
          | rewrite Hc; exact Hc3]].
      destruct (json_dumps r) as [js|e].
      * right; eexists; split; [|split; [|reflexivity]].
        -- apply (grows_eq _ _ ((0 + 0) + 0) ((0 + 0) + 0)); [|lia|lia].
           apply (grows_trans _ a5); [|apply grows_append_user].
           apply (grows_trans _ _ _ _ _ _ _ (grows_append_assistant _ _) Hg).
        -- simpl; rewrite Hc; exact Hc3.
      * left; split; simpl;
          [apply (grows_eq _ _ (0 + 0) (0 + 0)); [|lia|lia];
           apply (grows_trans _ _ _ _ _ _ _ (grows_append_assistant _ _) Hg)
          | rewrite Hc; exact Hc3].
    + right; eexists; split; [|split; [|reflexivity]]; [grow_chain|].
      simpl; exact Hc3.
  - destruct (extract_tool_calls msg) as [|tc tcs] eqn:Hx.
    + left; split; simpl; [grow_chain | exact Hc3].
    + pose proof (grows_run_tool_calls call_function json_dumps (tc :: tcs)
                    (append_message (mkMessage Assistant msg) a3)) as [Hg Hc].
      destruct (run_tool_calls call_function json_dumps
                  (append_message (mkMessage Assistant msg) a3) (tc :: tcs))
        as [a5 [u|e]]; simpl in Hg, Hc.
      * right; exists a5; split; [|split; [|reflexivity]].
        -- apply (grows_eq _ _ (0 + 0) (0 + 0)); [|lia|lia].
           apply (grows_trans _ _ _ _ _ _ _ (grows_append_assistant _ _) Hg).
        -- rewrite Hc; exact Hc3.
      * left; split; simpl;
          [apply (grows_eq _ _ (0 + 0) (0 + 0)); [|lia|lia];
           apply (grows_trans _ _ _ _ _ _ _ (grows_append_assistant _ _) Hg)
          | rewrite Hc; exact Hc3].
Qed.

(** The whole loop: the counter only grows and stays within the ceiling,
    one completion request is made per pass, the warning note is injected
    once when the counter passes [WARNING_THRESHOLD], and at the ceiling the
    loop returns the fixed message without any further call. *)
Lemma chat_loop_spec openai_create call_function json_dumps : forall fuel a,
  let res := chat_loop openai_create call_function json_dumps fuel a in
  iteration_count a <= iteration_count (fst res)
  /\ iteration_count (fst res) <= Nat.max (iteration_count a) MAX_ITERATIONS
  /\ grows a (fst res) (warnings_between (iteration_count a) (iteration_count (fst res)))
       (iteration_count (fst res) - iteration_count a)
  /\ (MAX_ITERATIONS <= iteration_count a -> res = (a, max_iterations_message)).
Proof.
  induction fuel as [|fuel IH]; intro a.
  - simpl; repeat split; try lia.
    rewrite warnings_between_same; apply (grows_eq _ _ 0 0); [apply grows_refl|reflexivity|lia].
  - destruct (Nat.ltb (iteration_count a) MAX_ITERATIONS) eqn:Hlt.
    + apply Nat.ltb_lt in Hlt as Hlt'.
      destruct (chat_loop_pass openai_create call_function json_dumps fuel a
                  (proj2 (Nat.ltb_lt _ _) Hlt'))
        as (a3 & Hg3 & Hc3 & [[Hg Hc] | (a4 & Hg4 & Hc4 & Heq)]).
      * cbv zeta; rewrite Hc.
        repeat split; try lia.
        apply (grows_eq _ _
                 ((if Nat.eqb (S (iteration_count a)) WARNING_THRESHOLD then 1 else 0) + 0)
                 (1 + 0)); [exact (grows_trans _ _ _ _ _ _ _ Hg3 Hg)| |lia].
        rewrite <- (warnings_between_step (iteration_count a) (S (iteration_count a)))
          by lia.
        rewrite warnings_between_same; reflexivity.
      * cbv zeta; rewrite Heq.
        destruct (IH a4) as (Hle & Hmax & Hg & _).
        rewrite Hc4 in Hle, Hmax, Hg.
        repeat split; try lia.
        apply (grows_eq _ _
                 ((if Nat.eqb (S (iteration_count a)) WARNING_THRESHOLD then 1 else 0)
                  + (0 + warnings_between (S (iteration_count a))
                           (iteration_count (fst (chat_loop openai_create call_function
                                                    json_dumps fuel a4)))))
                 (1 + (0 + (iteration_count (fst (chat_loop openai_create call_function
                                                   json_dumps fuel a4))
                            - S (iteration_count a)))));
          [| rewrite Nat.add_0_l; apply warnings_between_step; lia | lia].
        apply (grows_trans _ _ _ _ _ _ _ Hg3).
        apply (grows_trans _ _ _ _ _ _ _ Hg4 Hg).
    + apply Nat.ltb_ge in Hlt.
      simpl; rewrite (proj2 (Nat.ltb_ge _ _) Hlt); simpl.
      repeat split; try lia.
      rewrite warnings_between_same; apply (grows_eq _ _ 0 0); [apply grows_refl|reflexivity|lia].
Qed.

Lemma chat_loop_progress openai_create call_function json_dumps fuel a :
  Nat.ltb (iteration_count a) MAX_ITERATIONS = true ->
  S (iteration_count a)
  <= iteration_count (fst (chat_loop openai_create call_function json_dumps (S fuel) a)).
Proof.
  intro Hlt.
  destruct (chat_loop_pass openai_create call_function json_dumps fuel a Hlt)
    as (a3 & _ & _ & [[_ Hc] | (a4 & _ & Hc4 & Heq)]).
  - rewrite Hc; lia.
  - rewrite Heq, <- Hc4.
    exact (proj1 (chat_loop_spec openai_create call_function json_dumps fuel a4)).
Qed.

Lemma warnings_between_trans c1 c2 c3 :
  c1 <= c2 -> c2 <= c3 ->
  warnings_between c1 c2 + warnings_between c2 c3 = warnings_between c1 c3.
Proof.
  intros H12 H23; unfold warnings_between.
  destruct (Nat.ltb_spec c1 WARNING_THRESHOLD), (Nat.leb_spec WARNING_THRESHOLD c2),
    (Nat.ltb_spec c2 WARNING_THRESHOLD), (Nat.leb_spec WARNING_THRESHOLD c3);
    simpl; lia.
Qed.

(** [chat] as a whole: the user message, then the loop. *)
Lemma chat_spec openai_create call_function json_dumps a m :
  let res := chat openai_create call_function json_dumps a m in
  iteration_count a <= iteration_count (fst res)
  /\ 1 <= iteration_count (fst res)
  /\ iteration_count (fst res) <= Nat.max (iteration_count a) MAX_ITERATIONS
  /\ grows a (fst res) (warnings_between (iteration_count a) (iteration_count (fst res)))
       (iteration_count (fst res) - iteration_count a)
  /\ (MAX_ITERATIONS <= iteration_count a ->
      res = (append_message (mkMessage User m) a, max_iterations_message)).
Proof.
  unfold chat.
  set (a0 := append_message (mkMessage User m) a).
  change (iteration_count a) with (iteration_count a0).
  destruct (chat_loop_spec openai_create call_function json_dumps
              (S (MAX_ITERATIONS - iteration_count a0)) a0) as (Hle & Hmax & Hg & Hceil).
  repeat split; try assumption.
  - destruct (Nat.ltb (iteration_count a0) MAX_ITERATIONS) eqn:Hlt.
    + pose proof (chat_loop_progress openai_create call_function json_dumps
                    (MAX_ITERATIONS - iteration_count a0) a0 Hlt); lia.
    + apply Nat.ltb_ge in Hlt; unfold MAX_ITERATIONS in *; lia.
  - apply (grows_eq _ _ (0 + warnings_between (iteration_count a0)
                               (iteration_count (fst (chat_loop openai_create call_function
                                  json_dumps (S (MAX_ITERATIONS - iteration_count a0)) a0))))
             (0 + (iteration_count (fst (chat_loop openai_create call_function
                                  json_dumps (S (MAX_ITERATIONS - iteration_count a0)) a0))
                   - iteration_count a0))); [|lia|lia].
    apply (grows_trans _ a0); [apply grows_append_user | exact Hg].
Qed.

Lemma run_session_spec openai_create call_function json_dumps user_messages : forall a,
  let a' := run_session openai_create call_function json_dumps a user_messages in
  iteration_count a <= iteration_count a'
  /\ exists ms, messages a' = (messages a ++ ms)%list
     /\ count_warnings ms = warnings_between (iteration_count a) (iteration_count a').
Proof.
  induction user_messages as [|m rest IH]; intro a; simpl.
  - split; [lia|]. exists []; rewrite app_nil_r; split; [reflexivity|].
    rewrite warnings_between_same; reflexivity.
  - destruct (chat_spec openai_create call_function json_dumps a m)
      as (Hle & _ & _ & (ms1 & evs1 & Hm1 & _ & Hw1 & _) & _).
    destruct (IH (fst (chat openai_create call_function json_dumps a m)))
      as (Hle' & ms2 & Hm2 & Hw2).
    split; [lia|].
    exists (ms1 ++ ms2)%list; split.
    + rewrite Hm2, Hm1, app_assoc; reflexivity.
    + unfold count_warnings in *; rewrite filter_app, length_app.
      rewrite Hw1, Hw2; apply warnings_between_trans; assumption.
Qed.

(** C6: the warning note comes before the ceiling; a turn never lowers the
    counter, raises it by one per loop pass (one completion request each) and
    never leaves it at zero, while [reset_conversation] sets it to zero; over
    the turns of a session started at zero the transcript gains exactly one
    warning note once the counter has reached [WARNING_THRESHOLD], and none
    before, and each turn injects it exactly when its passes take the counter
    onto [WARNING_THRESHOLD]. *)
Theorem iteration_counter_and_single_warning :
  forall openai_create call_function json_dumps,
    WARNING_THRESHOLD < MAX_ITERATIONS
    /\ (forall a m,
          let a' := fst (chat openai_create call_function json_dumps a m) in
          iteration_count a <= iteration_count a' /\ 1 <= iteration_count a'
          /\ exists ms evs,
               messages a' = (messages a ++ ms)%list /\ trace a' = (evs ++ trace a)%list
               /\ provider_calls evs = iteration_count a' - iteration_count a
               /\ count_warnings ms
                  = (if Nat.ltb (iteration_count a) WARNING_THRESHOLD
                        && Nat.leb WARNING_THRESHOLD (iteration_count a') then 1 else 0))
    /\ (forall a, match reset_conversation a with
                  | Ok a' => iteration_count a' = 0 /\ messages a' = firstn 1 (messages a)
                  | Raise _ => messages a = []
                  end)
    /\ (forall a user_messages,
          iteration_count a = 0 ->
          let a' := run_session openai_create call_function json_dumps a user_messages in
          exists ms, messages a' = (messages a ++ ms)%list
                     /\ count_warnings ms
                        = (if Nat.leb WARNING_THRESHOLD (iteration_count a') then 1 else 0)).
Proof.
  intros openai_create call_function json_dumps.
  split; [unfold WARNING_THRESHOLD, MAX_ITERATIONS; lia|].
  split; [|split].
  - intros a m a'.
    destruct (chat_spec openai_create call_function json_dumps a m)
      as (Hle & H1 & _ & (ms & evs & Hm & Ht & Hw & Hp) & _).
    split; [exact Hle|]; split; [exact H1|].
    exists ms, evs; repeat split; assumption.
  - intro a; unfold reset_conversation.
    destruct (messages a) as [|m0 rest] eqn:Hm; simpl; [reflexivity|].
    split; reflexivity.
  - intros a user_messages H0 a'.
    destruct (run_session_spec openai_create call_function json_dumps user_messages a)
      as (_ & ms & Hm & Hw).
    exists ms; split; [exact Hm|].
    rewrite Hw, H0; reflexivity.
Qed.

Lemma iteration_counter_and_single_warning_witness :
  iteration_count sample_agent = 0
  /\ exists ms,
       messages (run_session lookup_then_answer_provider (constant_handler (PDict [("found", PBool false)]))
                   repr_dumps sample_agent ["a"; "b"; "c"; "d"])
       = (messages sample_agent ++ ms)%list
       /\ count_warnings ms
          = (if Nat.leb WARNING_THRESHOLD
                  (iteration_count
                     (run_session lookup_then_answer_provider (constant_handler (PDict [("found", PBool false)]))
                        repr_dumps sample_agent ["a"; "b"; "c"; "d"]))
             then 1 else 0).
Proof.
  assert (H0 : iteration_count sample_agent = 0) by reflexivity.
  split; [exact H0|].
  exact (proj2 (proj2 (proj2 (iteration_counter_and_single_warning lookup_then_answer_provider
            (constant_handler (PDict [("found", PBool false)])) repr_dumps)))
            sample_agent ["a"; "b"; "c"; "d"] H0).
Defined.




(** ** Commit guard and Slot State persistence *)
















(** ** Structured-call extractor *)

Lemma string_app_nil : forall s, s ++ EmptyString = s.
Proof. induction s; simpl; congruence. Qed.

Lemma string_app_assoc : forall a b c, (a ++ b) ++ c = a ++ (b ++ c).
Proof. induction a; intros; simpl; congruence. Qed.

Lemma string_length_app : forall a b, String.length (a ++ b) = (String.length a + String.length b)%nat.
Proof. induction a; intros; simpl; auto. Qed.

Lemma all_chars_app : forall f a b, all_chars f (a ++ b) = all_chars f a && all_chars f b.
Proof. induction a; intros; simpl; [reflexivity|]. rewrite IHa, andb_assoc; reflexivity. Qed.

Lemma prefix_self_app : forall p r, String.prefix p (p ++ r) = true.
Proof.
  induction p; intros; simpl; [destruct r; reflexivity|].
  destruct (ascii_dec a a); [apply IHp | contradiction].
Qed.

Lemma substring_zero_length : forall r, String.substring 0 (String.length r) r = r.
Proof. induction r; simpl; congruence. Qed.

Lemma substring_after_prefix : forall p r,
  String.substring (String.length p) (String.length (p ++ r) - String.length p) (p ++ r) = r.
Proof.
  intros p r. rewrite string_length_app.
  replace (String.length p + String.length r - String.length p)%nat with (String.length r) by lia.
  induction p; simpl.
  - apply substring_zero_length.
  - destruct (String.length p) eqn:E; [|exact IHp].
    destruct p; [exact IHp | discriminate].
Qed.

Lemma split_at_first_eq : forall pat s,
  split_at_first pat s =
  if String.prefix pat s then
    Some (EmptyString, String.substring (String.length pat)
                         (String.length s - String.length pat) s)
  else match s with
       | EmptyString => None
       | String c s' =>
           match split_at_first pat s' with
           | Some (before, after) => Some (String c before, after)
           | None => None
           end
       end.
Proof. intros pat s; destruct s; reflexivity. Qed.

Lemma split_at_first_app : forall c pt t r,
  lacks c t = true ->
  split_at_first (String c pt) (t ++ String c pt ++ r) = Some (t, r).
Proof.
  intros c pt t r; induction t as [|d t IH]; intro H.
  - rewrite split_at_first_eq.
    change (EmptyString ++ String c pt ++ r) with (String c pt ++ r).
    rewrite prefix_self_app, substring_after_prefix; reflexivity.
  - simpl in H; apply andb_prop in H as [Hd Ht].
    rewrite split_at_first_eq.
    change (String d t ++ String c pt ++ r) with (String d (t ++ String c pt ++ r)).
    assert (Hp : String.prefix (String c pt) (String d (t ++ String c pt ++ r)) = false).
    { simpl. destruct (ascii_dec c d) as [->|]; [|reflexivity].
      rewrite Ascii.eqb_refl in Hd; discriminate. }
    rewrite Hp, (IH Ht); reflexivity.
Qed.

Lemma split_at_first_none : forall pat s,
  contains pat s = false -> split_at_first pat s = None.
Proof.
  intros pat s; induction s as [|c s IH]; intro H; rewrite split_at_first_eq.
  - simpl in H; destruct pat; simpl in *; congruence.
  - cbn [contains] in H; apply orb_false_elim in H as [Hp Hs]; rewrite Hp.
    rewrite (IH Hs); reflexivity.
Qed.

Lemma findall_envelopes_segments : forall segs tail fuel,
  forallb (fun tb => lacks "<" (fst tb) && lacks "<" (snd tb)) segs = true ->
  contains open_tag tail = false ->
  (length segs <= fuel)%nat ->
  findall_envelopes_fuel fuel (render_segments segs tail) = map snd segs.
Proof.
  induction segs as [|[t b] segs IH]; intros tail fuel Hw Htail Hf.
  - destruct fuel; simpl; [reflexivity|].
    rewrite (split_at_first_none _ _ Htail); reflexivity.
  - destruct fuel as [|fuel]; [simpl in Hf; lia|].
    simpl in Hw; apply andb_prop in Hw as [Htb Hw]; apply andb_prop in Htb as [Ht Hb].
    cbn [findall_envelopes_fuel render_segments].
    unfold open_tag, close_tag.
    rewrite (split_at_first_app _ _ _ _ Ht).
    rewrite (split_at_first_app _ _ _ _ Hb).
    simpl; f_equal; apply IH; auto; simpl in Hf; lia.
Qed.

Lemma render_segments_length : forall segs tail,
  (length segs <= String.length (render_segments segs tail))%nat.
Proof.
  induction segs as [|[t b] segs IH]; intro tail; simpl; [lia|].
  repeat (rewrite string_length_app; simpl). specialize (IH tail); lia.
Qed.

Lemma extract_segments : forall segs tail,
  forallb (fun tb => lacks "<" (fst tb) && lacks "<" (snd tb)) segs = true ->
  contains open_tag tail = false ->
  extract_tool_calls (render_segments segs tail) = flat_map parse_envelope (map snd segs).
Proof.
  intros segs tail Hw Ht. unfold extract_tool_calls, findall_envelopes.
  rewrite findall_envelopes_segments; auto using render_segments_length.
Qed.

Lemma is_word_not_space : forall c, is_word c = true -> is_space c = false.
Proof.
  intros [[] [] [] [] [] [] [] []]; vm_compute; intro H; first [reflexivity | discriminate H].
Qed.

Lemma is_word_value_char : forall c, is_word c = true -> value_char c = true.
Proof.
  intros [[] [] [] [] [] [] [] []]; vm_compute; intro H; first [reflexivity | discriminate H].
Qed.

Lemma all_chars_impl : forall (f g : ascii -> bool),
  (forall c, f c = true -> g c = true) ->
  forall s, all_chars f s = true -> all_chars g s = true.
Proof.
  intros f g Hfg s; induction s as [|c s IH]; simpl; [reflexivity|].
  intro H; apply andb_prop in H as [Hc Hs]; rewrite (Hfg c Hc), (IH Hs); reflexivity.
Qed.

Lemma string_rev_app : forall a b, string_rev (a ++ b) = string_rev b ++ string_rev a.
Proof.
  induction a as [|c a IH]; intro b; simpl.
  - rewrite string_app_nil; reflexivity.
  - rewrite IH, string_app_assoc; reflexivity.
Qed.

Lemma string_rev_involutive : forall s, string_rev (string_rev s) = s.
Proof.
  induction s as [|c s IH]; simpl; [reflexivity|].
  rewrite string_rev_app, IH; reflexivity.
Qed.

Lemma lstrip_nonspace : forall c s, is_space c = false -> lstrip (String c s) = String c s.
Proof. intros c s H; simpl; rewrite H; reflexivity. Qed.

Lemma strip_nonspace_edges : forall c s d,
  is_space c = false -> is_space d = false ->
  strip (String c s ++ String d EmptyString) = String c s ++ String d EmptyString.
Proof.
  intros c s d Hc Hd. unfold strip, rstrip.
  change (String c s ++ String d EmptyString) with (String c (s ++ String d EmptyString)).
  rewrite lstrip_nonspace by exact Hc.
  change (String c (s ++ String d EmptyString)) with (String c s ++ String d EmptyString).
  assert (Hr : string_rev (String c s ++ String d EmptyString)
               = String d (string_rev (String c s))).
  { rewrite string_rev_app; reflexivity. }
  rewrite Hr, lstrip_nonspace by exact Hd.
  rewrite <- Hr, string_rev_involutive; reflexivity.
Qed.

Lemma lstrip_snoc_nonempty : forall c x,
  is_space c = false -> lstrip (x ++ String c EmptyString) <> EmptyString.
Proof.
  intros c x Hc; induction x as [|e x IH]; simpl.
  - rewrite Hc; discriminate.
  - destruct (is_space e); [exact IH | discriminate].
Qed.

Lemma string_rev_nonempty : forall s, s <> EmptyString -> string_rev s <> EmptyString.
Proof.
  intros [|c s] H; [contradiction|]; simpl.
  destruct (string_rev s); discriminate.
Qed.

Lemma strip_nonempty : forall c s, is_space c = false -> strip (String c s) <> EmptyString.
Proof.
  intros c s Hc. unfold strip, rstrip. rewrite lstrip_nonspace by exact Hc.
  apply string_rev_nonempty. simpl. apply lstrip_snoc_nonempty, Hc.
Qed.

Lemma span_app : forall f a c r,
  all_chars f a = true -> f c = false -> span f (a ++ String c r) = (a, String c r).
Proof.
  intros f a c r; induction a as [|e a IH]; intros Ha Hc; simpl.
  - rewrite Hc; reflexivity.
  - simpl in Ha; apply andb_prop in Ha as [He Ha]; rewrite He, (IH Ha Hc); reflexivity.
Qed.

Lemma span_all : forall f a, all_chars f a = true -> span f a = (a, EmptyString).
Proof.
  intros f a; induction a as [|e a IH]; intro Ha; simpl; [reflexivity|].
  simpl in Ha; apply andb_prop in Ha as [He Ha]; rewrite He, (IH Ha); reflexivity.
Qed.

Lemma lazy_until_paren_app : forall a,
  all_chars body_char a = true -> lazy_until_paren (a ++ ")") = Some a.
Proof.
  induction a as [|c a IH]; intro Ha; [reflexivity|].
  simpl in Ha; apply andb_prop in Ha as [Hc Ha]. unfold body_char in Hc.
  apply andb_prop in Hc as [Hc _]; apply andb_prop in Hc as [Hp Hn].
  apply negb_true_iff in Hp, Hn.
  change (String c a ++ ")") with (String c (a ++ ")")).
  cbn [lazy_until_paren]. rewrite Hp, Hn, (IH Ha); reflexivity.
Qed.

Lemma match_call_render : forall name args,
  is_identifier name = true -> all_chars body_char args = true ->
  match_call (name ++ "(" ++ args ++ ")") = Some (name, args).
Proof.
  intros [|c name'] args Hn Ha; [discriminate|].
  unfold match_call.
  change ("(" ++ args ++ ")") with (String "(" (args ++ ")")).
  rewrite span_app by (exact Hn || reflexivity).
  cbn iota beta. rewrite (lazy_until_paren_app _ Ha); reflexivity.
Qed.

Lemma drop_last_snoc : forall s d, drop_last (s ++ String d EmptyString) = s.
Proof.
  induction s as [|c s IH]; intro d; [reflexivity|].
  change (String c s ++ String d EmptyString) with (String c (s ++ String d EmptyString)).
  cbn [drop_last].
  destruct (s ++ String d EmptyString) eqn:E; [destruct s; discriminate|].
  rewrite <- E, IH; reflexivity.
Qed.

Lemma quoted_parts : forall q s,
  is_space q = false ->
  strip (String q (s ++ String q EmptyString)) = String q (s ++ String q EmptyString)
  /\ endswith q (String q (s ++ String q EmptyString)) = true
  /\ slice_1_m1 (String q (s ++ String q EmptyString)) = s.
Proof.
  intros q s Hq. split; [|split].
  - change (String q (s ++ String q EmptyString)) with (String q s ++ String q EmptyString).
    apply strip_nonspace_edges; exact Hq.
  - unfold endswith.
    change (String q (s ++ String q EmptyString)) with (String q s ++ String q EmptyString).
    rewrite string_rev_app; simpl; apply Ascii.eqb_refl.
  - apply drop_last_snoc.
Qed.

Lemma parse_value_render : forall v,
  value_ok v = true -> parse_value (render_value v) = value_of v.
Proof.
  intros [s|s|t] Hv; unfold parse_value, render_value, value_of.
  - destruct (quoted_parts dquote s eq_refl) as (Hs & He & Hsl).
    rewrite Hs. cbn [startswith]. rewrite Ascii.eqb_refl, He. cbn [andb orb].
    rewrite Hsl; reflexivity.
  - destruct (quoted_parts squote s eq_refl) as (Hs & He & Hsl).
    rewrite Hs. cbn [startswith]. rewrite Ascii.eqb_refl, He. cbn [andb orb].
    rewrite Hsl; reflexivity.
  - simpl in Hv. destruct t as [|c t']; [discriminate|].
    apply andb_prop in Hv as [Hv Hst]; apply andb_prop in Hv as [Hq _].
    apply andb_prop in Hq as [Hd Hs]; apply negb_true_iff in Hd, Hs.
    apply String.eqb_eq in Hst. rewrite Hst. cbn [startswith].
    rewrite Ascii.eqb_sym in Hd, Hs. rewrite Hd, Hs; reflexivity.
Qed.

Lemma render_value_chars : forall v,
  value_ok v = true -> all_chars value_char (render_value v) = true /\ render_value v <> EmptyString.
Proof.
  intros [s|s|t] Hv; simpl in Hv |- *.
  - rewrite all_chars_app, Hv; split; [reflexivity | discriminate].
  - rewrite all_chars_app, Hv; split; [reflexivity | discriminate].
  - destruct t as [|c t']; [discriminate|].
    apply andb_prop in Hv as [Hv _]; apply andb_prop in Hv as [_ Hv].
    split; [exact Hv | discriminate].
Qed.

Lemma findall_pairs_empty : forall f, findall_pairs_fuel f EmptyString = [].
Proof. intros [|f]; reflexivity. Qed.

Lemma findall_pairs_skip : forall f c s,
  is_word c = false -> findall_pairs_fuel (S f) (String c s) = findall_pairs_fuel f s.
Proof. intros f c s Hc; simpl; rewrite Hc; reflexivity. Qed.

Lemma findall_pairs_hit : forall f k X value rest,
  is_identifier k = true -> span not_comma X = (value, rest) -> value <> EmptyString ->
  findall_pairs_fuel (S f) (k ++ "=" ++ X) = (k, value) :: findall_pairs_fuel f rest.
Proof.
  intros f [|c k'] X value rest Hk HX Hv; [discriminate|].
  assert (Hs : span is_word (String c k' ++ "=" ++ X) = (String c k', String "=" X))
    by (apply span_app; [exact Hk | reflexivity]).
  change (String c k' ++ "=" ++ X) with (String c (k' ++ String "=" X)) in Hs |- *.
  cbn [findall_pairs_fuel]. rewrite Hs. cbn iota beta. rewrite HX.
  destruct value; [contradiction | reflexivity].
Qed.

Lemma not_comma_of_value_char : forall c, value_char c = true -> not_comma c = true.
Proof.
  intros c H; unfold value_char in H; apply andb_prop in H as [H _]; exact H.
Qed.

Lemma findall_pairs_render : forall kvs fuel,
  forallb arg_ok kvs = true ->
  (String.length (render_args kvs) <= fuel)%nat ->
  findall_pairs_fuel fuel (render_args kvs)
  = map (fun kv => (fst kv, render_value (snd kv))) kvs.
Proof.
  induction kvs as [|[k v] rest IH]; intros fuel Hok Hlen.
  - apply findall_pairs_empty.
  - simpl in Hok; apply andb_prop in Hok as [Hkv Hok]; unfold arg_ok in Hkv; simpl in Hkv.
    apply andb_prop in Hkv as [Hk Hv].
    destruct (render_value_chars v Hv) as [Hrc Hrn].
    assert (Hrc' : all_chars not_comma (render_value v) = true)
      by exact (all_chars_impl _ _ not_comma_of_value_char _ Hrc).
    assert (Hk1 : (1 <= String.length k)%nat) by (destruct k; [discriminate | simpl; lia]).
    assert (Hv1 : (1 <= String.length (render_value v))%nat)
      by (destruct (render_value v); [contradiction | simpl; lia]).
    destruct rest as [|kv2 rest'];
      [change (render_args [(k, v)]) with (k ++ "=" ++ render_value v ++ EmptyString) in *
      |change (render_args ((k, v) :: kv2 :: rest'))
         with (k ++ "=" ++ render_value v ++ ", " ++ render_args (kv2 :: rest')) in *];
      repeat rewrite string_length_app in Hlen; cbn [String.length String.append] in Hlen;
      (destruct fuel as [|f]; [lia|]).
    + rewrite findall_pairs_hit with (value := render_value v) (rest := EmptyString);
        [ | exact Hk | | exact Hrn].
      * rewrite findall_pairs_empty; reflexivity.
      * rewrite string_app_nil; apply span_all, Hrc'.
    + rewrite findall_pairs_hit with (value := render_value v)
        (rest := ", " ++ render_args (kv2 :: rest')); [ | exact Hk | | exact Hrn].
      * destruct f as [|[|f]]; [lia | lia |].
        change (", " ++ render_args (kv2 :: rest'))
          with (String "," (String " " (render_args (kv2 :: rest')))).
        rewrite findall_pairs_skip, findall_pairs_skip by reflexivity.
        simpl map. f_equal. apply IH; [exact Hok | lia].
      * apply span_app; [exact Hrc' | reflexivity].
Qed.

Lemma dict_set_absent : forall d k v,
  existsb (String.eqb k) (map fst d) = false -> dict_set d k v = (d ++ [(k, v)])%list.
Proof.
  induction d as [|[k' v'] d IH]; intros k v H; [reflexivity|].
  simpl in H; apply orb_false_elim in H as [Hk Hd]; simpl; rewrite Hk, (IH _ _ Hd); reflexivity.
Qed.

Lemma distinct_keys_app_cons : forall l1 k l2,
  distinct_keys (l1 ++ k :: l2) = true -> existsb (String.eqb k) l1 = false.
Proof.
  induction l1 as [|x l1 IH]; intros k l2 H; [reflexivity|].
  simpl in H; apply andb_prop in H as [Hx H]; simpl.
  rewrite (IH _ _ H), orb_false_r.
  apply negb_true_iff in Hx; rewrite existsb_app in Hx; apply orb_false_elim in Hx as [_ Hx].
  simpl in Hx; apply orb_false_elim in Hx as [Hx _].
  rewrite String.eqb_sym; exact Hx.
Qed.

Lemma fold_dict_set_distinct : forall (g : string -> pyval) kvs acc,
  distinct_keys (map fst acc ++ map fst kvs) = true ->
  fold_left (fun kwargs kv => dict_set kwargs (fst kv) (g (snd kv))) kvs acc
  = (acc ++ map (fun kv => (fst kv, g (snd kv))) kvs)%list.
Proof.
  intros g; induction kvs as [|[k s] kvs IH]; intros acc H; simpl.
  - rewrite app_nil_r; reflexivity.
  - simpl in H. rewrite dict_set_absent by exact (distinct_keys_app_cons _ _ _ H).
    rewrite IH, <- app_assoc; [reflexivity|].
    rewrite map_app, <- app_assoc; exact H.
Qed.

Lemma render_args_chars : forall kvs,
  forallb arg_ok kvs = true -> all_chars body_char (render_args kvs) = true.
Proof.
  induction kvs as [|[k v] rest IH]; intro H; [reflexivity|].
  simpl in H; apply andb_prop in H as [Hkv H]; unfold arg_ok in Hkv; simpl in Hkv.
  apply andb_prop in Hkv as [Hk Hv].
  assert (Hb : forall c, value_char c = true -> body_char c = true)
    by (intros c Hc; unfold value_char in Hc; apply andb_prop in Hc as [_ Hc]; exact Hc).
  cbn [render_args]. rewrite all_chars_app.
  replace (all_chars body_char k) with true
    by (symmetry; destruct k; [discriminate|];
        exact (all_chars_impl _ _ (fun c Hc => Hb c (is_word_value_char c Hc)) _ Hk)).
  rewrite all_chars_app, all_chars_app.
  rewrite (all_chars_impl _ _ Hb _ (proj1 (render_value_chars v Hv))).
  destruct rest; [reflexivity|]. exact (IH H).
Qed.

Lemma parse_kwargs_render : forall kvs,
  forallb arg_ok kvs = true -> distinct_keys (map fst kvs) = true ->
  parse_kwargs (render_args kvs) = map (fun kv => (fst kv, value_of (snd kv))) kvs.
Proof.
  intros kvs Hok Hd. destruct kvs as [|[k v] rest]; [reflexivity|].
  unfold parse_kwargs.
  assert (Hne : strip (render_args ((k, v) :: rest)) <> EmptyString).
  { simpl in Hok; apply andb_prop in Hok as [Hkv _]; unfold arg_ok in Hkv; simpl in Hkv.
    apply andb_prop in Hkv as [Hk _].
    destruct k as [|c k']; [discriminate|]. simpl in Hk; apply andb_prop in Hk as [Hc _].
    change (render_args ((String c k', v) :: rest))
      with (String c (k' ++ "=" ++ render_value v
             ++ match rest with [] => EmptyString | _ => ", " ++ render_args rest end)).
    apply strip_nonempty, is_word_not_space, Hc. }
  destruct (strip (render_args ((k, v) :: rest))) eqn:E; [contradiction|].
  unfold findall_pairs. rewrite findall_pairs_render by (exact Hok || lia).
  rewrite (fold_dict_set_distinct (fun s => parse_value s)).
  - rewrite app_nil_l, map_map. apply map_ext_in.
    intros [k0 v0] Hin; simpl. f_equal. apply parse_value_render.
    apply forallb_forall with (x := (k0, v0)) in Hok; [|exact Hin].
    unfold arg_ok in Hok; apply andb_prop in Hok as [_ Hok]; exact Hok.
  - rewrite app_nil_l, map_map. exact Hd.
Qed.

Lemma parse_envelope_render : forall name kvs,
  is_identifier name = true -> forallb arg_ok kvs = true -> distinct_keys (map fst kvs) = true ->
  parse_envelope (render_call name kvs)
  = [mkToolCall name (map (fun kv => (fst kv, value_of (snd kv))) kvs)].
Proof.
  intros name kvs Hn Hok Hd. unfold parse_envelope, render_call.
  assert (Hs : strip (name ++ "(" ++ render_args kvs ++ ")") = name ++ "(" ++ render_args kvs ++ ")").
  { destruct name as [|c n']; [discriminate|]. simpl in Hn; apply andb_prop in Hn as [Hc _].
    change (String c n' ++ "(" ++ render_args kvs ++ ")")
      with (String c (n' ++ "(" ++ render_args kvs ++ ")")).
    replace (n' ++ "(" ++ render_args kvs ++ ")") with ((n' ++ "(" ++ render_args kvs) ++ ")")
      by (rewrite !string_app_assoc; reflexivity).
    change (String c ((n' ++ "(" ++ render_args kvs) ++ ")"))
      with (String c (n' ++ "(" ++ render_args kvs) ++ String ")" EmptyString).
    apply strip_nonspace_edges; [apply is_word_not_space, Hc | reflexivity]. }
  rewrite Hs, match_call_render by (exact Hn || exact (render_args_chars _ Hok)).
  rewrite parse_kwargs_render by assumption; reflexivity.
Qed.

Lemma lacks_lstrip : forall c s, lacks c s = true -> lacks c (lstrip s) = true.
Proof.
  intros c s; induction s as [|d s IH]; intro H; [reflexivity|].
  simpl; destruct (is_space d); [|exact H].
  apply IH; simpl in H; apply andb_prop in H as [_ H]; exact H.
Qed.

Lemma lacks_string_rev : forall c s, lacks c (string_rev s) = lacks c s.
Proof.
  intros c s; induction s as [|d s IH]; [reflexivity|].
  unfold lacks in *; simpl; rewrite all_chars_app, IH; simpl.
  rewrite andb_true_r, andb_comm; reflexivity.
Qed.

Lemma lacks_strip : forall c s, lacks c s = true -> lacks c (strip s) = true.
Proof.
  intros c s H; unfold strip, rstrip.
  rewrite lacks_string_rev; apply lacks_lstrip; rewrite lacks_string_rev; apply lacks_lstrip, H.
Qed.

Lemma span_split : forall f s w r, span f s = (w, r) -> s = w ++ r.
Proof.
  intros f s; induction s as [|c s IH]; intros w r H; simpl in H.
  - inversion H; reflexivity.
  - destruct (f c).
    + destruct (span f s) as [w' r'] eqn:E; inversion H; subst; simpl; f_equal; apply (IH w' r); reflexivity.
    + inversion H; reflexivity.
Qed.

Lemma lacks_app_cons : forall c a r, lacks c (a ++ String c r) = false.
Proof.
  intros c a r; unfold lacks; rewrite all_chars_app; simpl; rewrite Ascii.eqb_refl.
  rewrite andb_false_r; reflexivity.
Qed.

Lemma match_call_needs_paren : forall t, lacks "(" t = true -> match_call t = None.
Proof.
  intros t H; unfold match_call.
  destruct (span is_word t) as [name rest] eqn:E.
  apply span_split in E; subst t.
  destruct name as [|c0 n']; [reflexivity|].
  destruct rest as [|c r]; [reflexivity|].
  destruct (Ascii.eqb c "(") eqn:Ec; [|reflexivity].
  apply Ascii.eqb_eq in Ec; subst c.
  rewrite lacks_app_cons in H; discriminate.
Qed.

Lemma envelope_sound : forall e,
  envelope_ok e = true ->
  lacks "<" (envelope_body e) = true /\ parse_envelope (envelope_body e) = expected_calls e.
Proof.
  intros [name kvs|body] H; simpl in H |- *.
  - apply andb_prop in H as [H Hd]; apply andb_prop in H as [Hn Hok].
    split; [|exact (parse_envelope_render _ _ Hn Hok Hd)].
    unfold render_call, lacks. rewrite !all_chars_app.
    assert (Hnl : all_chars (fun d => negb (Ascii.eqb d "<")) name = true).
    { destruct name; [discriminate|].
      refine (all_chars_impl _ _ _ _ Hn).
      intros c Hc; apply is_word_value_char in Hc.
      unfold value_char, body_char in Hc; apply andb_prop in Hc as [_ Hc].
      apply andb_prop in Hc as [_ Hc]; exact Hc. }
    rewrite Hnl.
    rewrite (all_chars_impl body_char _
              (fun c Hc => proj2 (andb_prop _ _ Hc)) _ (render_args_chars _ Hok)).
    reflexivity.
  - apply andb_prop in H as [Hp Hl]. split; [exact Hl|].
    unfold parse_envelope. rewrite match_call_needs_paren by (apply lacks_strip, Hp).
    reflexivity.
Qed.

(** *** Envelopes delimited by their tags *)






(** *** Calls whose values may hold any character but [,], [)] and newlines *)
















(** ** Turns, the tool loop and reset *)

Lemma frame_call_value call_function a f kwargs :
  frame (fst (call_value call_function a f kwargs)) = frame a.
Proof. destruct f; reflexivity. Qed.

Lemma frame_execute_tool call_function a tc :
  frame (fst (execute_tool call_function a tc)) = frame a.
Proof.
  unfold execute_tool.
  destruct (dict_lookup (tool_map a) (tc_name tc)) as [f|]; [|reflexivity].
  pose proof (frame_call_value call_function a f (tc_arguments tc)) as Hf.
  destruct (call_value call_function a f (tc_arguments tc)) as [a1 [r|e]]; simpl in *;
    [|exact Hf].
  destruct (update_booking_state (tc_name tc) (tc_arguments tc) r (booking a1))
    as [b' [u|e]]; exact Hf.
Qed.

Lemma frame_run_tool_calls call_function json_dumps tcs : forall a,
  frame (fst (run_tool_calls call_function json_dumps a tcs)) = frame a.
Proof.
  induction tcs as [|tc rest IH]; intro a; simpl; [reflexivity|].
  pose proof (frame_execute_tool call_function a tc) as Hf.
  destruct (execute_tool call_function a tc) as [a1 result]; simpl in Hf.
  destruct (json_dumps result) as [js|e]; simpl; [|exact Hf].
  rewrite IH; exact Hf.
Qed.

Lemma frame_chat_loop openai_create call_function json_dumps : forall fuel a,
  frame (fst (chat_loop openai_create call_function json_dumps fuel a)) = frame a.
Proof.
  induction fuel as [|fuel IH]; intro a; [reflexivity|].
  cbn [chat_loop].
  destruct (Nat.ltb (iteration_count a) MAX_ITERATIONS); [|reflexivity].
  cbv beta iota zeta; unfold call_openai; cbv beta iota.
  set (a2 := if Nat.eqb (iteration_count (set_iteration_count (S (iteration_count a)) a))
                  WARNING_THRESHOLD
             then append_message (mkMessage System warning_note)
                    (set_iteration_count (S (iteration_count a)) a)
             else set_iteration_count (S (iteration_count a)) a).
  assert (H2 : frame a2 = frame a) by (subst a2; destruct (Nat.eqb _ _); reflexivity).
  destruct (openai_create (trace a2) (model a2) (messages a2)) as [msg|e]; [|exact H2].
  destruct (ready_to_book msg).
  - destruct (is_complete _); [|rewrite IH; exact H2].
    destruct (to_booking_request _) as [data|e]; [|exact H2].
    match goal with |- context [call_value ?cf ?b ?f ?kw] =>
      pose proof (frame_call_value cf b f kw) as Hf;
      destruct (call_value cf b f kw) as [a5 [r|e]] end;
      [destruct (json_dumps r) as [js|e]; [rewrite IH|]|];
      unfold frame in *; simpl in *; congruence.
  - destruct (extract_tool_calls msg) as [|tc tcs]; [exact H2|].
    match goal with |- context [run_tool_calls ?cf ?jd ?b ?l] =>
      pose proof (frame_run_tool_calls cf jd l b) as Hf;
      destruct (run_tool_calls cf jd b l) as [a5 [u|e]] end;
      [rewrite IH|]; unfold frame in *; simpl in *; congruence.
Qed.

Lemma frame_chat openai_create call_function json_dumps a m :
  frame (fst (chat openai_create call_function json_dumps a m)) = frame a.
Proof. unfold chat; rewrite frame_chat_loop; reflexivity. Qed.

(** X1: resetting after a turn gives the agent that resetting before it gives,
    apart from the record of external calls: the turn's messages, counter and
    Slot State are forgotten, the system prompt, patient, model and tool map
    kept; a second reset changes nothing. *)
Theorem reset_after_turn_forgets_turn openai_create call_function json_dumps a m :
  messages a <> [] ->
  exists a1 a2,
    reset_conversation (fst (chat openai_create call_function json_dumps a m)) = Ok a1
    /\ reset_conversation a = Ok a2
    /\ forget_trace a1 = forget_trace a2
    /\ reset_conversation a2 = Ok a2.
Proof.
  intro Hne.
  destruct (messages a) as [|m0 rest] eqn:Hm; [congruence|].
  destruct (chat_spec openai_create call_function json_dumps a m)
    as (_ & _ & _ & (ms & evs & Hms & _) & _).
  pose proof (frame_chat openai_create call_function json_dumps a m) as Hf.
  destruct (chat openai_create call_function json_dumps a m) as [a' res]; simpl in *.
  unfold frame in Hf; injection Hf as Hp Hmo Ht.
  unfold reset_conversation; rewrite Hms, Hm; simpl.
  do 2 eexists; split; [reflexivity|]; split; [reflexivity|].
  unfold forget_trace; simpl; rewrite Hp, Hmo, Ht; split; reflexivity.
Qed.

Lemma messages_execute_tool call_function a tc :
  messages (fst (execute_tool call_function a tc)) = messages a.
Proof.
  unfold execute_tool.
  destruct (dict_lookup (tool_map a) (tc_name tc)) as [f|]; [|reflexivity].
  assert (Hf : messages (fst (call_value call_function a f (tc_arguments tc))) = messages a)
    by (destruct f; reflexivity).
  destruct (call_value call_function a f (tc_arguments tc)) as [a1 [r|e]]; simpl in *;
    [|exact Hf].
  destruct (update_booking_state (tc_name tc) (tc_arguments tc) r (booking a1))
    as [b' [u|e]]; exact Hf.
Qed.

(** X2: when [json.dumps] succeeds on every result, the tool loop of [chat]
    appends exactly one [Tool result for <name>:] message per extracted call,
    in the order of the calls, and no other message. *)
Theorem run_tool_calls_one_result_per_call call_function json_dumps :
  (forall v, exists js, json_dumps v = Ok js) ->
  forall tcs a,
    exists jss,
      length jss = length tcs
      /\ snd (run_tool_calls call_function json_dumps a tcs) = Ok tt
      /\ messages (fst (run_tool_calls call_function json_dumps a tcs))
         = (messages a ++ map (fun p => tool_result_message (fst p) (snd p))
                               (combine tcs jss))%list.
Proof.
  intros Hj tcs; induction tcs as [|tc rest IH]; intro a; cbn [run_tool_calls].
  - exists []; rewrite app_nil_r; repeat split.
  - pose proof (messages_execute_tool call_function a tc) as Hm1.
    destruct (execute_tool call_function a tc) as [a1 result]; simpl in Hm1.
    destruct (Hj result) as [js Hjs]; rewrite Hjs.
    destruct (IH (append_message (tool_result_message tc js) a1))
      as (jss & Hl & Hok & Hm).
    exists (js :: jss); cbv beta iota.
    change (mkMessage User ("Tool result for " ++ tc_name tc ++ ":" ++ nl ++ js))
      with (tool_result_message tc js).
    repeat split; [simpl; lia|exact Hok|].
    rewrite Hm; unfold append_message; cbn [messages map combine fst snd]; rewrite Hm1, <- app_assoc; reflexivity.
Qed.

Section Intent.
Variable openai_create : list event -> string -> list message -> outcome string.
Variable call_function : list event -> string -> dict -> outcome pyval.
Variable json_dumps : pyval -> outcome string.
Hypothesis Hintent : forall w md ms, exists r, openai_create w md ms = Ok r /\ ready_to_book r = true.

Lemma intent_loop : forall k a,
  MAX_ITERATIONS - iteration_count a = k -> is_complete (booking a) = false ->
  let res := chat_loop openai_create call_function json_dumps (S k) a in
  snd res = max_iterations_message /\ booking (fst res) = booking a
  /\ iteration_count (fst res) = Nat.max (iteration_count a) MAX_ITERATIONS
  /\ exists ms evs, messages (fst res) = (messages a ++ ms)%list
     /\ trace (fst res) = (evs ++ trace a)%list
     /\ forallb is_provider_event evs = true /\ length evs = k
     /\ Forall (fun x => role x = User -> x = cannot_book_note (booking a)) ms.
Proof.
  induction k as [|k IH]; intros a Hk Hinc.
  - cbn [chat_loop].
    assert (Hge : Nat.ltb (iteration_count a) MAX_ITERATIONS = false) by (apply Nat.ltb_ge; lia).
    rewrite Hge; simpl.
    repeat split; [lia|].
    exists [], []; rewrite !app_nil_r; repeat split; constructor.
  - remember (S k) as f eqn:Ef.
    cbn [chat_loop].
    assert (Hlt : Nat.ltb (iteration_count a) MAX_ITERATIONS = true) by (apply Nat.ltb_lt; lia).
    rewrite Hlt; cbv beta iota zeta.
    unfold call_openai; cbv beta iota.
    set (a2 := if Nat.eqb (iteration_count (set_iteration_count (S (iteration_count a)) a))
                    WARNING_THRESHOLD
               then append_message (mkMessage System warning_note)
                      (set_iteration_count (S (iteration_count a)) a)
               else set_iteration_count (S (iteration_count a)) a).
    assert (Hb2 : booking a2 = booking a) by (subst a2; destruct (Nat.eqb _ _); reflexivity).
    assert (Hc2 : iteration_count a2 = S (iteration_count a))
      by (subst a2; destruct (Nat.eqb _ _); reflexivity).
    assert (Ht2 : trace a2 = trace a) by (subst a2; destruct (Nat.eqb _ _); reflexivity).
    assert (Hm2 : exists w, messages a2 = (messages a ++ w)%list
                            /\ Forall (fun x => role x = User -> x = cannot_book_note (booking a)) w)
      by (subst a2; destruct (Nat.eqb _ _);
          [exists [mkMessage System warning_note] | exists []];
          (split; [simpl; rewrite ?app_nil_r; reflexivity
                  | repeat constructor; discriminate])).
    destruct (Hintent (trace a2) (model a2) (messages a2)) as (r & Hr & Hrb).
    rewrite Hr; cbv beta iota; rewrite Hrb.
    change (booking (append_message (mkMessage Assistant r) (log_event (EvProvider (messages a2)) a2)))
      with (booking a2).
    rewrite Hb2, Hinc; cbv beta iota; subst f.
    set (a4 := append_message (mkMessage User ("Cannot book yet. Still need: "
                 ++ join ", " (missing_fields (booking a))))
                 (append_message (mkMessage Assistant r) (log_event (EvProvider (messages a2)) a2))).
    destruct (IH a4) as (Hres & Hb & Hc & ms & evs & Hms & Hevs & Hp & Hl & Hf);
      [change (iteration_count a4) with (iteration_count a2); rewrite Hc2; lia
       | change (booking a4) with (booking a2); rewrite Hb2; exact Hinc |].
    assert (Hb4 : booking a4 = booking a) by exact Hb2.
    rewrite Hb4 in Hb, Hf.
    repeat split; [exact Hres | exact Hb | rewrite Hc; change (iteration_count a4) with (iteration_count a2); rewrite Hc2; lia |].
    destruct Hm2 as (w & Hw & Hwf).
    exists (w ++ [mkMessage Assistant r; cannot_book_note (booking a)] ++ ms)%list,
           (evs ++ [EvProvider (messages a2)])%list.
    repeat split.
    + rewrite Hms; simpl; rewrite Hw, <- !app_assoc; reflexivity.
    + rewrite Hevs; simpl; rewrite Ht2, <- app_assoc; reflexivity.
    + rewrite forallb_app, Hp; reflexivity.
    + rewrite length_app, Hl; simpl; lia.
    + apply Forall_app; split; [exact Hwf|].
      constructor; [discriminate|]; constructor; [intros _; reflexivity|exact Hf].
Qed.

End Intent.

(** X3: if every completion announces a booking while the Slot State is
    incomplete, the turn spends all remaining passes and returns the
    maximum-iterations message; the Slot State is unchanged, no handler is
    called, and every user message added after the user's own is the [Cannot
    book yet] note. *)
Theorem commit_intent_on_incomplete_state_exhausts_turn
    openai_create call_function json_dumps a m :
  (forall w md ms, exists r, openai_create w md ms = Ok r /\ ready_to_book r = true) ->
  is_complete (booking a) = false ->
  let res := chat openai_create call_function json_dumps a m in
  snd res = max_iterations_message /\ booking (fst res) = booking a
  /\ iteration_count (fst res) = Nat.max (iteration_count a) MAX_ITERATIONS
  /\ exists ms evs, messages (fst res) = (messages a ++ mkMessage User m :: ms)%list
     /\ trace (fst res) = (evs ++ trace a)%list
     /\ forallb is_provider_event evs = true
     /\ length evs = MAX_ITERATIONS - iteration_count a
     /\ Forall (fun x => role x = User -> x = cannot_book_note (booking a)) ms.
Proof.
  intros Hintent Hinc res; subst res; unfold chat.
  destruct (intent_loop openai_create call_function json_dumps Hintent
              (MAX_ITERATIONS - iteration_count a) (append_message (mkMessage User m) a)
              eq_refl Hinc)
    as (Hres & Hb & Hc & ms & evs & Hms & Hevs & Hp & Hl & Hf).
  repeat split; [exact Hres|exact Hb|exact Hc|].
  exists ms, evs; repeat split; [|exact Hevs|exact Hp|exact Hl|exact Hf].
  rewrite Hms; cbn [messages append_message]; rewrite <- app_assoc; reflexivity.
Qed.

Lemma commit_intent_on_incomplete_state_exhausts_turn_witness :
  (forall w md ms, exists r,
     (fun (_ : list event) (_ : string) (_ : list message) =>
        Ok "I will book the appointment now." : outcome string) w md ms = Ok r
     /\ ready_to_book r = true)
  /\ is_complete (booking sample_agent) = false
  /\ snd (chat (fun _ _ _ => Ok "I will book the appointment now.")
            (constant_handler PNone) repr_dumps sample_agent "Book me in")
     = max_iterations_message.
Proof.
  assert (Hi : forall w md ms, exists r,
     (fun (_ : list event) (_ : string) (_ : list message) =>
        Ok "I will book the appointment now." : outcome string) w md ms = Ok r
     /\ ready_to_book r = true)
    by (intros w md ms; eexists; split; [reflexivity|vm_compute; reflexivity]).
  assert (Hc : is_complete (booking sample_agent) = false) by reflexivity.
  split; [exact Hi|split; [exact Hc|]].
  exact (proj1 (commit_intent_on_incomplete_state_exhausts_turn _
                  (constant_handler PNone) repr_dumps sample_agent "Book me in" Hi Hc)).
Defined.

(** ** The extractor, the commit phrases and the booking request *)

Lemma lstrip_app_nonspace : forall u c R, is_space c = false ->
  exists u', lstrip (u ++ String c R) = u' ++ String c R.
Proof.
  induction u as [|d u IH]; intros c R Hc.
  - exists EmptyString; simpl; rewrite Hc; reflexivity.
  - simpl; destruct (is_space d); [apply IH, Hc|].
    exists (String d u); reflexivity.
Qed.

Lemma rstrip_keeps_nonspace : forall x c y, is_space c = false ->
  exists y', rstrip (x ++ String c y) = x ++ String c y'.
Proof.
  intros x c y Hc; unfold rstrip.
  rewrite string_rev_app; cbn [string_rev]; rewrite string_app_assoc; cbn [String.append].
  destruct (lstrip_app_nonspace (string_rev y) c (string_rev x) Hc) as [u' Hu].
  rewrite Hu, string_rev_app; cbn [string_rev].
  rewrite string_rev_involutive, string_app_assoc.
  exists (string_rev u'); reflexivity.
Qed.



Lemma lazy_until_paren_app_any : forall a y,
  all_chars body_char a = true -> lazy_until_paren (a ++ String ")" y) = Some a.
Proof.
  induction a as [|c a IH]; intros y Ha; [reflexivity|].
  simpl in Ha; apply andb_prop in Ha as [Hc Ha]. unfold body_char in Hc.
  apply andb_prop in Hc as [Hc _]; apply andb_prop in Hc as [Hp Hn].
  apply negb_true_iff in Hp, Hn.
  cbn [String.append lazy_until_paren]. rewrite Hp, Hn, (IH y Ha); reflexivity.
Qed.

Lemma is_identifier_lacks_lt : forall name,
  is_identifier name = true -> lacks "<" name = true.
Proof.
  intros [|c n] Hn; [discriminate|].
  refine (all_chars_impl _ _ _ _ Hn).
  intros d Hd; apply is_word_value_char in Hd.
  unfold value_char, body_char in Hd; apply andb_prop in Hd as [_ Hd].
  apply andb_prop in Hd as [_ Hd]; exact Hd.
Qed.

Lemma render_call_lacks_lt : forall name kvs,
  is_identifier name = true -> forallb arg_ok kvs = true ->
  lacks "<" (render_call name kvs) = true.
Proof.
  intros name kvs Hn Hok. unfold render_call, lacks. rewrite !all_chars_app.
  pose proof (is_identifier_lacks_lt name Hn) as Hnl; unfold lacks in Hnl; rewrite Hnl.
  rewrite (all_chars_impl body_char _
            (fun c Hc => proj2 (andb_prop _ _ Hc)) _ (render_args_chars _ Hok)).
  reflexivity.
Qed.

(** The envelope body [name(args)rest]: the rest after the closing parenthesis
    is not read. *)
Lemma parse_envelope_call_prefix : forall name kvs rest,
  is_identifier name = true -> forallb arg_ok kvs = true ->
  parse_envelope (render_call name kvs ++ rest)
  = [mkToolCall name (parse_kwargs (render_args kvs))].
Proof.
  intros name kvs rest Hn Hok. unfold parse_envelope, render_call.
  destruct name as [|c n']; [discriminate|].
  assert (Hc : is_space c = false)
    by (simpl in Hn; apply andb_prop in Hn as [Hc _]; apply is_word_not_space, Hc).
  assert (Hs : exists y, strip ((String c n' ++ "(" ++ render_args kvs ++ ")") ++ rest)
                         = String c n' ++ "(" ++ render_args kvs ++ String ")" y).
  { unfold strip.
    change ((String c n' ++ "(" ++ render_args kvs ++ ")") ++ rest)
      with (String c ((n' ++ "(" ++ render_args kvs ++ ")") ++ rest)).
    rewrite lstrip_nonspace by exact Hc.
    change (String c ((n' ++ "(" ++ render_args kvs ++ ")") ++ rest))
      with ((String c n' ++ "(" ++ render_args kvs ++ ")") ++ rest).
    replace ((String c n' ++ "(" ++ render_args kvs ++ ")") ++ rest)
      with ((String c n' ++ "(" ++ render_args kvs) ++ String ")" rest)
      by (rewrite !string_app_assoc; reflexivity).
    destruct (rstrip_keeps_nonspace (String c n' ++ "(" ++ render_args kvs) ")" rest eq_refl)
      as [y Hy].
    exists y; rewrite Hy, !string_app_assoc; reflexivity. }
  destruct Hs as [y Hs]; rewrite Hs.
  unfold match_call.
  change ("(" ++ render_args kvs ++ String ")" y) with (String "(" (render_args kvs ++ String ")" y)).
  rewrite span_app by (exact Hn || reflexivity).
  cbn iota beta.
  rewrite (lazy_until_paren_app_any _ y (render_args_chars _ Hok)); reflexivity.
Qed.

Lemma extract_single_envelope : forall body,
  lacks "<" body = true ->
  extract_tool_calls (open_tag ++ body ++ close_tag) = parse_envelope body.
Proof.
  intros body Hb.
  pose proof (extract_segments [(EmptyString, body)] EmptyString) as H.
  cbn [render_segments map flat_map fst snd] in H.
  rewrite string_app_nil, app_nil_r in H.
  apply H; [simpl; rewrite Hb; reflexivity | reflexivity].
Qed.

(** X4: text after the first well-formed call of an envelope, without [<], is
    ignored: the envelope yields exactly that call. *)
Theorem extractor_reads_first_call_only : forall name kvs rest,
  envelope_ok (WellFormed name kvs) = true -> lacks "<" rest = true ->
  extract_tool_calls (open_tag ++ render_call name kvs ++ rest ++ close_tag)
  = expected_calls (WellFormed name kvs).
Proof.
  intros name kvs rest Hok Hr.
  simpl in Hok; apply andb_prop in Hok as [Hok Hd]; apply andb_prop in Hok as [Hn Hok].
  replace (render_call name kvs ++ rest ++ close_tag) with ((render_call name kvs ++ rest) ++ close_tag)
    by apply string_app_assoc.
  rewrite extract_single_envelope.
  - rewrite parse_envelope_call_prefix by assumption.
    rewrite parse_kwargs_render by assumption; reflexivity.
  - unfold lacks; rewrite all_chars_app.
    pose proof (render_call_lacks_lt name kvs Hn Hok) as Hl; unfold lacks in Hl, Hr.
    rewrite Hl, Hr; reflexivity.
Qed.













Lemma lower_app : forall a b, lower (a ++ b) = lower a ++ lower b.
Proof. induction a as [|c a IH]; intro b; simpl; [reflexivity|]; rewrite IH; reflexivity. Qed.

Lemma contains_middle : forall p u v, contains p (u ++ p ++ v) = true.
Proof.
  intros p u v; induction u as [|c u IH].
  - cbn [String.append].
    assert (Hp : String.prefix p (p ++ v) = true) by apply prefix_self_app.
    destruct (p ++ v); cbn [contains]; rewrite Hp; reflexivity.
  - cbn [String.append contains]; rewrite IH, orb_true_r; reflexivity.
Qed.

(** X7: [_ready_to_book] holds as soon as one of its phrases occurs anywhere
    in the message, in any letter case. *)
Theorem ready_to_book_detects_phrase_anywhere : forall x q y,
  In (lower q) booking_phrases -> ready_to_book (x ++ q ++ y) = true.
Proof.
  intros x q y Hin. unfold ready_to_book.
  apply existsb_exists; exists (lower q); split; [exact Hin|].
  rewrite !lower_app; apply contains_middle.
Qed.

Lemma forallb_not_none_false : forall l,
  forallb (fun v => negb (is_none v)) l = false <-> In PNone l.
Proof.
  induction l as [|v l IH]; simpl; [split; [discriminate | contradiction]|].
  rewrite andb_false_iff, IH.
  destruct v; simpl; split; intros [H|H]; auto; try discriminate H; right; exact H.
Qed.

(** X8: [to_booking_request] raises exactly when one of the five required
    slots is [None]; its message lists [missing_fields], which names every
    such slot. *)
Theorem to_booking_request_names_unset_slots : forall b,
  ((exists e, to_booking_request b = Raise e) <-> In PNone (map snd (required_slots b)))
  /\ forall e, to_booking_request b = Raise e ->
     e = "Cannot create booking request. Missing: "
         ++ py_repr (PList (map PStr (missing_fields b)))
     /\ forall l, In (l, PNone) (required_slots b) -> In l (missing_fields b).
Proof.
  intros [p pid pn did ln ty d t n].
  unfold to_booking_request, is_complete, missing_fields, required_slots; cbn [provider_id department_id appointment_type date appointment_time map snd].
  split.
  - rewrite <- forallb_not_none_false.
    destruct (forallb _ _); simpl; split;
      [intros [e He]; discriminate He | discriminate | reflexivity | intros _; eexists; reflexivity].
  - intros e He.
    destruct (negb (forallb _ _)); [|discriminate He].
    injection He as <-; split; [reflexivity|].
    intros l Hl; simpl in Hl.
    repeat (destruct Hl as [Hl|Hl];
            [injection Hl as Hl1 Hl2; subst; simpl; rewrite ?in_app_iff; simpl; tauto|]).
    contradiction Hl.
Qed.

(** ** Session context *)

(** X9: [Patient.from_api] succeeds on a dict exactly when it has the keys
    [id], [name] and [dob], raises the [KeyError] of the first one missing
    otherwise, and raises on a value that is not a dict. *)
Theorem from_api_requires_id_name_dob :
  (forall d, (exists pa, from_api (PDict d) = Ok pa)
             <-> forallb (dict_mem d) ["id"; "name"; "dob"] = true)
  /\ (forall d k, find (fun k => negb (dict_mem d k)) ["id"; "name"; "dob"] = Some k ->
        from_api (PDict d) = Raise (String squote (k ++ String squote EmptyString)))
  /\ (forall v, is_dict v = false -> exists e, from_api v = Raise e).
Proof.
  split; [|split].
  - intro d; unfold from_api, dict_mem; simpl.
    destruct (dict_lookup d "id"), (dict_lookup d "name"), (dict_lookup d "dob"); simpl;
      (split;
       [intros [pa H]; first [reflexivity | discriminate H]
       | intro H; try discriminate H]).
    destruct (dict_lookup d "pcp"), (dict_lookup d "ehrId"), (dict_lookup d "notes"),
      (dict_lookup d "insurance"), (dict_lookup d "referred_providers"),
      (dict_lookup d "appointments"); eexists; reflexivity.
  - intros d k; unfold from_api, dict_mem; simpl.
    destruct (dict_lookup d "id"), (dict_lookup d "name"), (dict_lookup d "dob"); simpl;
      intro H; try discriminate H; injection H as <-; reflexivity.
  - intros [] H; try discriminate H; eexists; reflexivity.
Qed.

Lemma render_referrals_raise : forall refs context,
  (exists e, render_referrals context refs = Raise e)
  <-> existsb (fun v => negb (is_dict v)) refs = true.
Proof.
  induction refs as [|ref rest IH]; intro context; simpl.
  - split; [intros [e H]; discriminate H | discriminate].
  - destruct ref; simpl; try (split; [reflexivity | intros _; eexists; reflexivity]).
    destruct (dict_lookup d "specialty"), (dict_lookup d "provider"); simpl; apply IH.
Qed.

Lemma render_appointments_raise : forall apts context,
  (exists e, render_appointments context apts = Raise e)
  <-> existsb (fun v => negb (is_dict v)) apts = true.
Proof.
  induction apts as [|apt rest IH]; intro context; simpl.
  - split; [intros [e H]; discriminate H | discriminate].
  - destruct apt; simpl; try (split; [reflexivity | intros _; eexists; reflexivity]).
    destruct (dict_lookup d "date"), (dict_lookup d "provider"), (dict_lookup d "status");
      simpl; apply IH.
Qed.

(** X10: the patient context depends on the appointments only through the
    first five of them and their number. *)
Theorem patient_context_reads_first_five_appointments : forall p apts1 apts2,
  firstn 5 apts1 = firstn 5 apts2 -> length apts1 = length apts2 ->
  build_patient_context (with_appointments p apts1)
  = build_patient_context (with_appointments p apts2).
Proof.
  intros p apts1 apts2 Hf Hl.
  unfold build_patient_context, with_appointments; cbn [Patient.appointments Patient.referrals Patient.notes].
  destruct (match Patient.referrals p with
            | [] => _ | _ => _ end); [|reflexivity]; cbn [obind].
  destruct apts1 as [|a1 l1], apts2 as [|a2 l2]; try discriminate Hl; [reflexivity|].
  rewrite Hf, Hl; reflexivity.
Qed.

(** X11: building the patient context raises exactly when a referral or one of
    the first five appointments is not a dict. *)
Theorem patient_context_raises_on_non_dict_entry : forall p,
  (exists e, build_patient_context p = Raise e)
  <-> existsb (fun v => negb (is_dict v))
        (Patient.referrals p ++ firstn 5 (Patient.appointments p)) = true.
Proof.
  intro p; unfold build_patient_context; cbv zeta; rewrite existsb_app.
  match goal with |- (exists e, obind ?m ?k = Raise e) <-> _ =>
    assert (HR : (exists e, m = Raise e)
                 <-> existsb (fun v => negb (is_dict v)) (Patient.referrals p) = true)
      by (destruct (Patient.referrals p) as [|r rs];
          [split; [intros [e H]; discriminate H | discriminate]
          | apply render_referrals_raise]);
    assert (HA : forall c, (exists e, k c = Raise e)
                 <-> existsb (fun v => negb (is_dict v)) (firstn 5 (Patient.appointments p)) = true)
      by (intro c; cbv beta; destruct (Patient.appointments p) as [|a as'];
          [split; [intros [e H]; discriminate H | discriminate]
          | apply render_appointments_raise]);
    destruct m as [c|e] eqn:Em
  end; cbn [obind].
  - rewrite HA.
    destruct (existsb (fun v => negb (is_dict v)) (Patient.referrals p)) eqn:Er;
      [destruct (proj2 HR eq_refl) as [e He]; discriminate He | reflexivity].
  - rewrite (proj1 HR (ex_intro _ e eq_refl)); simpl orb.
    split; [reflexivity | intros _; eexists; reflexivity].
Qed.

(** ** Handlers *)

(** X12: when the query service answers a provider search with rows, executing
    the call fills the provider slots from the row if there is exactly one,
    and leaves the Slot State unchanged otherwise. *)
Theorem providers_lookup_fills_iff_one_row post five_years_ago other a s txt d rows :
  dict_lookup (tool_map a) "get_providers_by_specialty" = Some (PFunc "get_providers_by_specialty") ->
  post (trace a) query_url (PDict [("sql", PStr providers_sql); ("params", PList [s])])
    = Ok (mkResponse 200 txt (Ok (PDict d))) ->
  dict_lookup d "results" = Some (PList (map provider_row rows)) ->
  booking (fst (execute_tool (tool_functions post five_years_ago other) a
                  (mkToolCall "get_providers_by_specialty" [("specialty", s)])))
  = match rows with [r] => fill_provider r (booking a) | _ => booking a end.
Proof.
  intros Hmap Hpost Hres.
  unfold execute_tool; cbn [tc_name tc_arguments]; rewrite Hmap; cbn [call_value].
  unfold tool_functions; cbn [String.eqb Ascii.eqb Bool.eqb andb].
  cbv [bind_args specialty_params]; cbn -[get_providers_by_specialty].
  unfold get_providers_by_specialty; rewrite Hpost; cbn [obind status_is_200 status_code response_json Z.eqb negb py_get_default]; rewrite Hres.
  destruct rows as [|r [|r2 rest]]; cbn; [reflexivity| |reflexivity].
  destruct (booking a); reflexivity.
Qed.

(** X13: when the query service answers a location search with rows, executing
    the call fills the department slots from the row if there is exactly one,
    and leaves the Slot State unchanged otherwise. *)
Theorem locations_lookup_fills_iff_one_row post five_years_ago other a pid txt d rows :
  dict_lookup (tool_map a) "get_provider_locations" = Some (PFunc "get_provider_locations") ->
  post (trace a) query_url (PDict [("sql", PStr locations_sql); ("params", PList [pid])])
    = Ok (mkResponse 200 txt (Ok (PDict d))) ->
  dict_lookup d "results" = Some (PList (map location_row rows)) ->
  booking (fst (execute_tool (tool_functions post five_years_ago other) a
                  (mkToolCall "get_provider_locations" [("provider_id", pid)])))
  = match rows with [r] => fill_location r (booking a) | _ => booking a end.
Proof.
  intros Hmap Hpost Hres.
  unfold execute_tool; cbn [tc_name tc_arguments]; rewrite Hmap; cbn [call_value].
  unfold tool_functions; cbn [String.eqb Ascii.eqb Bool.eqb andb].
  cbv [bind_args provider_id_params]; cbn -[get_provider_locations].
  unfold get_provider_locations; rewrite Hpost; cbn [obind status_is_200 status_code response_json Z.eqb negb py_get_default]; rewrite Hres.
  destruct rows as [|r [|r2 rest]]; cbn; [reflexivity| |reflexivity].
  destruct (booking a); reflexivity.
Qed.

Lemma history_result_shape post five_years_ago patient_id provider_id :
  (exists msg, check_appointment_history post five_years_ago patient_id provider_id
               = error_result msg)
  \/ (exists rest, check_appointment_history post five_years_ago patient_id provider_id
               = PDict (("appointment_type", PStr "NEW") :: rest))
  \/ (exists rest, check_appointment_history post five_years_ago patient_id provider_id
               = PDict (("appointment_type", PStr "ESTABLISHED") :: rest)).
Proof.
  unfold check_appointment_history, catch_tool_error.
  destruct (post _ _) as [resp|e]; cbn [obind]; [|left; eexists; reflexivity].
  destruct (negb (status_is_200 resp)); [left; eexists; reflexivity|].
  destruct (response_json resp) as [data|e]; cbn [obind]; [|left; eexists; reflexivity].
  destruct (py_get_default data "results" (PList [])) as [apts|e]; cbn [obind];
    [|left; eexists; reflexivity].
  destruct (truthy apts); [|right; left; eexists; reflexivity].
  destruct (py_index0 apts) as [first|e]; cbn [obind]; [|left; eexists; reflexivity].
  destruct (py_getitem first "date") as [lv|e]; cbn [obind]; [|left; eexists; reflexivity].
  right; right; eexists; reflexivity.
Qed.

(** X14: executing [check_appointment_history] either fails on its arguments
    and leaves the Slot State unchanged, or sets the appointment type to the
    result's [appointment_type], which is [NEW], [ESTABLISHED], or [None] with
    an error payload. *)
Theorem history_lookup_sets_new_established_or_none post five_years_ago other a kwargs :
  dict_lookup (tool_map a) "check_appointment_history"
    = Some (PFunc "check_appointment_history") ->
  let res := execute_tool (tool_functions post five_years_ago other) a
               (mkToolCall "check_appointment_history" kwargs) in
  (exists e, snd res = error_result ("Tool execution failed: " ++ e)
             /\ booking (fst res) = booking a)
  \/ (exists t, py_get (snd res) "appointment_type" = Ok t
      /\ booking (fst res) = set_appointment_type t (booking a)
      /\ (t = PStr "NEW" \/ t = PStr "ESTABLISHED"
          \/ (t = PNone /\ exists msg, snd res = error_result msg))).
Proof.
  intros Hmap res; subst res.
  unfold execute_tool; cbn [tc_name tc_arguments]; rewrite Hmap; cbn [call_value].
  unfold tool_functions; cbn [String.eqb Ascii.eqb Bool.eqb andb].
  destruct (bind_args "check_appointment_history" history_params kwargs) as [l|e];
    cbn [obind]; [|left; exists e; split; reflexivity].
  destruct (history_result_shape (post (trace a)) (five_years_ago (trace a))
              (local l "patient_id") (local l "provider_id"))
    as [[msg Hr]|[[rest Hr]|[rest Hr]]]; rewrite Hr; right.
  - exists PNone; split; [reflexivity|split; [cbn; destruct (booking a); reflexivity|]].
    right; right; split; [reflexivity|eexists; reflexivity].
  - exists (PStr "NEW"); split; [reflexivity|split; [cbn; destruct (booking a); reflexivity|]].
    left; reflexivity.
  - exists (PStr "ESTABLISHED"); split; [reflexivity|split; [cbn; destruct (booking a); reflexivity|]].
    right; left; reflexivity.
Qed.

(** X15: [book_appointment] never raises: its result starts with a boolean
    [success], which is [True] only for a 200 answer whose JSON has a truthy
    [success] and both [appointment_id] and [confirmation]. *)
Theorem book_result_success_only_on_confirmed_booking answer :
  (exists ok rest, book_result answer = PDict (("success", PBool ok) :: rest))
  /\ (forall rest, book_result answer = PDict (("success", PBool true) :: rest) ->
      exists resp d, answer = Ok resp /\ status_code resp = 200%Z
        /\ response_json resp = Ok (PDict d)
        /\ truthy (match dict_lookup d "success" with Some v => v | None => PNone end) = true
        /\ dict_mem d "appointment_id" = true /\ dict_mem d "confirmation" = true).
Proof.
  unfold book_result.
  destruct answer as [resp|e]; cbn [obind];
    [|split; [do 2 eexists; reflexivity|intros rest H; discriminate H]].
  unfold status_is_200.
  destruct (Z.eqb (status_code resp) 200) eqn:Hs; cbn [negb].
  - destruct (response_json resp) as [data|e] eqn:Hj; cbn [obind];
      [|split; [do 2 eexists; reflexivity|intros rest H; discriminate H]].
    destruct data as [| | | | |d|];
      cbn [py_get py_get_default obind];
      try (split; [do 2 eexists; reflexivity|intros rest H; discriminate H]).
    destruct (dict_lookup d "success") as [sv|] eqn:Hsv; cbn [obind];
      [|cbn [truthy]; destruct (dict_lookup d "error"); cbn [obind];
        (split; [do 2 eexists; reflexivity|intros rest H; discriminate H])].
    destruct (truthy sv) eqn:Ht.
    + unfold py_getitem, py_get_default, dict_mem.
      destruct (dict_lookup d "appointment_id") as [aid|] eqn:Ha; cbn [obind];
        [|split; [do 2 eexists; reflexivity|intros rest H; discriminate H]].
      destruct (dict_lookup d "confirmation") as [conf|] eqn:Hc; cbn [obind];
        [|split; [do 2 eexists; reflexivity|intros rest H; discriminate H]].
      destruct (dict_lookup d "details"); cbn [obind];
        (split; [do 2 eexists; reflexivity|]);
        intros rest _; exists resp, d;
        (split; [reflexivity|split; [apply Z.eqb_eq; exact Hs|split; [exact Hj|]]]);
        rewrite Hsv, Ha, Hc; (split; [exact Ht|split; reflexivity]).
    + unfold py_get_default.
      destruct (dict_lookup d "error"); cbn [obind];
        (split; [do 2 eexists; reflexivity|intros rest H; discriminate H]).
  - destruct (response_json resp) as [data|e]; cbn [obind];
      [|split; [do 2 eexists; reflexivity|intros rest H; discriminate H]].
    destruct (py_get_default data "error" (PStr "Booking failed")); cbn [obind];
      (split; [do 2 eexists; reflexivity|intros rest H; discriminate H]).
Qed.

(** X16: for a complete Slot State, the dict [to_booking_request] builds binds
    to the parameters of [book_appointment], which posts it unchanged to
    [/api/book]. *)
Theorem commit_request_reaches_server_unchanged post five_years_ago other world b data :
  to_booking_request b = Ok data ->
  tool_functions post five_years_ago other world "book_appointment" data
  = Ok (book_result (post world book_url (PDict data))).
Proof.
  unfold to_booking_request; destruct (negb (is_complete b)); intro H; [discriminate H|].
  injection H as <-; reflexivity.
Qed.

(** X17: [check_insurance] reports [accepted: True] only when its first query
    was answered with status 200 and the first match has a truthy [accepted]. *)
Theorem insurance_accepted_only_for_accepted_first_match post insurance_name rest :
  check_insurance post insurance_name = PDict (("accepted", PBool true) :: rest) ->
  exists resp data results first accepted,
    post query_url (PDict [("sql", PStr insurance_sql);
                           ("params", PList [PStr ("%" ++ py_str insurance_name ++ "%")])])
      = Ok resp
    /\ status_is_200 resp = true /\ response_json resp = Ok data
    /\ py_get_default data "results" (PList []) = Ok results
    /\ py_index0 results = Ok first /\ py_getitem first "accepted" = Ok accepted
    /\ truthy accepted = true.
Proof.
  unfold check_insurance, catch_tool_error.
  destruct (post _ _) as [resp|e] eqn:Hp; cbn [obind]; [|intro H; discriminate H].
  destruct (status_is_200 resp) eqn:Hs; cbn [negb]; [|intro H; discriminate H].
  destruct (response_json resp) as [data|e] eqn:Hj; cbn [obind]; [|intro H; discriminate H].
  destruct (py_get_default data "results" (PList [])) as [results|e] eqn:Hr; cbn [obind];
    [|intro H; discriminate H].
  destruct (truthy results).
  - destruct (py_index0 results) as [first|e] eqn:Hf; cbn [obind]; [|intro H; discriminate H].
    destruct (py_getitem first "accepted") as [acc|e] eqn:Hacc; cbn [obind]; [|intro H; discriminate H].
    destruct (truthy acc) eqn:Ha.
    + intros _; exists resp, data, results, first, acc; repeat split; assumption.
    + destruct (py_getitem first "name"); cbn [obind]; [|intro H; discriminate H].
      destruct (py_getitem first "name"); cbn [obind]; intro H; discriminate H.
  - destruct (post query_url (PDict [("sql", PStr accepted_list_sql)])) as [lr|e];
      cbn [obind]; [|intro H; discriminate H].
    destruct (status_is_200 lr); cbn [obind]; [|intro H; discriminate H].
    destruct (response_json lr) as [ld|e]; cbn [obind]; [|intro H; discriminate H].
    destruct (py_get_default ld "results" (PList [])) as [rows|e]; cbn [obind];
      [|intro H; discriminate H].
    destruct (py_iter rows) as [items|e]; cbn [obind]; [|intro H; discriminate H].
    destruct (map_outcome (fun ins => py_getitem ins "name") items); cbn [obind];
      intro H; discriminate H.
Qed.


(** ** Witnesses *)

Lemma reset_after_turn_forgets_turn_witness :
  messages sample_agent <> []
  /\ exists a1 a2,
    reset_conversation (fst (chat (scripted_provider ["Hello"]) (constant_handler PNone)
                               repr_dumps sample_agent "Hi")) = Ok a1
    /\ reset_conversation sample_agent = Ok a2
    /\ forget_trace a1 = forget_trace a2
    /\ reset_conversation a2 = Ok a2.
Proof.
  assert (H : messages sample_agent <> []) by discriminate.
  split; [exact H|].
  exact (reset_after_turn_forgets_turn (scripted_provider ["Hello"]) (constant_handler PNone)
           repr_dumps sample_agent "Hi" H).
Defined.

Lemma run_tool_calls_one_result_per_call_witness :
  (forall v, exists js, repr_dumps v = Ok js)
  /\ exists jss,
    length jss = 1
    /\ snd (run_tool_calls (constant_handler PNone) repr_dumps sample_agent
              [mkToolCall "check_insurance" [("insurance_name", PStr "Aetna")]]) = Ok tt
    /\ messages (fst (run_tool_calls (constant_handler PNone) repr_dumps sample_agent
              [mkToolCall "check_insurance" [("insurance_name", PStr "Aetna")]]))
       = (messages sample_agent
          ++ map (fun p => tool_result_message (fst p) (snd p))
               (combine [mkToolCall "check_insurance" [("insurance_name", PStr "Aetna")]] jss))%list.
Proof.
  assert (H : forall v, exists js, repr_dumps v = Ok js)
    by (intro v; eexists; reflexivity).
  split; [exact H|].
  exact (run_tool_calls_one_result_per_call (constant_handler PNone) repr_dumps H
           [mkToolCall "check_insurance" [("insurance_name", PStr "Aetna")]] sample_agent).
Defined.

Lemma extractor_reads_first_call_only_witness :
  envelope_ok (WellFormed "check_insurance" [("insurance_name", DQuoted "Aetna")]) = true
  /\ lacks "<" " and then check the rates)" = true
  /\ extract_tool_calls (open_tag ++ render_call "check_insurance"
                           [("insurance_name", DQuoted "Aetna")]
                         ++ " and then check the rates)" ++ close_tag)
     = expected_calls (WellFormed "check_insurance" [("insurance_name", DQuoted "Aetna")]).
Proof.
  assert (H1 : envelope_ok (WellFormed "check_insurance" [("insurance_name", DQuoted "Aetna")])
               = true) by (vm_compute; reflexivity).
  assert (H2 : lacks "<" " and then check the rates)" = true) by (vm_compute; reflexivity).
  split; [exact H1|split; [exact H2|]].
  exact (extractor_reads_first_call_only "check_insurance" [("insurance_name", DQuoted "Aetna")]
           " and then check the rates)" H1 H2).
Defined.



Lemma ready_to_book_detects_phrase_anywhere_witness :
  In (lower "Book The Appointment") booking_phrases
  /\ ready_to_book ("Great, I will " ++ "Book The Appointment" ++ " for you now.") = true.
Proof.
  assert (H : In (lower "Book The Appointment") booking_phrases)
    by (left; reflexivity).
  split; [exact H|].
  exact (ready_to_book_detects_phrase_anywhere "Great, I will " "Book The Appointment"
           " for you now." H).
Defined.


Lemma patient_context_reads_first_five_appointments_witness :
  firstn 5 [visit "2024-06"; visit "2024-05"; visit "2024-04"; visit "2024-03";
            visit "2024-02"; visit "2024-01"]
  = firstn 5 [visit "2024-06"; visit "2024-05"; visit "2024-04"; visit "2024-03";
              visit "2024-02"; PInt 0]
  /\ length [visit "2024-06"; visit "2024-05"; visit "2024-04"; visit "2024-03";
             visit "2024-02"; visit "2024-01"]
     = length [visit "2024-06"; visit "2024-05"; visit "2024-04"; visit "2024-03";
               visit "2024-02"; PInt 0]
  /\ build_patient_context (with_appointments sample_patient
       [visit "2024-06"; visit "2024-05"; visit "2024-04"; visit "2024-03";
        visit "2024-02"; visit "2024-01"])
     = build_patient_context (with_appointments sample_patient
       [visit "2024-06"; visit "2024-05"; visit "2024-04"; visit "2024-03";
        visit "2024-02"; PInt 0]).
Proof.
  assert (H1 : firstn 5 [visit "2024-06"; visit "2024-05"; visit "2024-04"; visit "2024-03";
                         visit "2024-02"; visit "2024-01"]
               = firstn 5 [visit "2024-06"; visit "2024-05"; visit "2024-04"; visit "2024-03";
                           visit "2024-02"; PInt 0]) by reflexivity.
  assert (H2 : length [visit "2024-06"; visit "2024-05"; visit "2024-04"; visit "2024-03";
                       visit "2024-02"; visit "2024-01"]
               = length [visit "2024-06"; visit "2024-05"; visit "2024-04"; visit "2024-03";
                         visit "2024-02"; PInt 0]) by reflexivity.
  split; [exact H1|split; [exact H2|]].
  exact (patient_context_reads_first_five_appointments sample_patient _ _ H1 H2).
Defined.

Lemma providers_lookup_fills_iff_one_row_witness :
  dict_lookup (tool_map sample_agent) "get_providers_by_specialty"
    = Some (PFunc "get_providers_by_specialty")
  /\ rows_post [provider_row sample_provider_row] (trace sample_agent) query_url
       (PDict [("sql", PStr providers_sql); ("params", PList [PStr "Orthopedics"])])
     = Ok (mkResponse 200 EmptyString
             (Ok (PDict [("results", PList [provider_row sample_provider_row])])))
  /\ dict_lookup [("results", PList [provider_row sample_provider_row])] "results"
     = Some (PList (map provider_row [sample_provider_row]))
  /\ booking (fst (execute_tool
                     (tool_functions (rows_post [provider_row sample_provider_row])
                        sample_cutoff (constant_handler PNone))
                     sample_agent
                     (mkToolCall "get_providers_by_specialty" [("specialty", PStr "Orthopedics")])))
     = fill_provider sample_provider_row (booking sample_agent).
Proof.
  assert (H1 : dict_lookup (tool_map sample_agent) "get_providers_by_specialty"
               = Some (PFunc "get_providers_by_specialty")) by reflexivity.
  assert (H2 : rows_post [provider_row sample_provider_row] (trace sample_agent) query_url
                 (PDict [("sql", PStr providers_sql); ("params", PList [PStr "Orthopedics"])])
               = Ok (mkResponse 200 EmptyString
                       (Ok (PDict [("results", PList [provider_row sample_provider_row])]))))
    by reflexivity.
  assert (H3 : dict_lookup [("results", PList [provider_row sample_provider_row])] "results"
               = Some (PList (map provider_row [sample_provider_row]))) by reflexivity.
  split; [exact H1|split; [exact H2|split; [exact H3|]]].
  exact (providers_lookup_fills_iff_one_row (rows_post [provider_row sample_provider_row])
           sample_cutoff (constant_handler PNone) sample_agent (PStr "Orthopedics") EmptyString
           [("results", PList [provider_row sample_provider_row])] [sample_provider_row]
           H1 H2 H3).
Defined.

Lemma locations_lookup_fills_iff_one_row_witness :
  dict_lookup (tool_map sample_agent) "get_provider_locations"
    = Some (PFunc "get_provider_locations")
  /\ rows_post [location_row sample_location_row] (trace sample_agent) query_url
       (PDict [("sql", PStr locations_sql); ("params", PList [PInt 7])])
     = Ok (mkResponse 200 EmptyString
             (Ok (PDict [("results", PList [location_row sample_location_row])])))
  /\ dict_lookup [("results", PList [location_row sample_location_row])] "results"
     = Some (PList (map location_row [sample_location_row]))
  /\ booking (fst (execute_tool
                     (tool_functions (rows_post [location_row sample_location_row])
                        sample_cutoff (constant_handler PNone))
                     sample_agent
                     (mkToolCall "get_provider_locations" [("provider_id", PInt 7)])))
     = fill_location sample_location_row (booking sample_agent).
Proof.
  assert (H1 : dict_lookup (tool_map sample_agent) "get_provider_locations"
               = Some (PFunc "get_provider_locations")) by reflexivity.
  assert (H2 : rows_post [location_row sample_location_row] (trace sample_agent) query_url
                 (PDict [("sql", PStr locations_sql); ("params", PList [PInt 7])])
               = Ok (mkResponse 200 EmptyString
                       (Ok (PDict [("results", PList [location_row sample_location_row])]))))
    by reflexivity.
  assert (H3 : dict_lookup [("results", PList [location_row sample_location_row])] "results"
               = Some (PList (map location_row [sample_location_row]))) by reflexivity.
  split; [exact H1|split; [exact H2|split; [exact H3|]]].
  exact (locations_lookup_fills_iff_one_row (rows_post [location_row sample_location_row])
           sample_cutoff (constant_handler PNone) sample_agent (PInt 7) EmptyString
           [("results", PList [location_row sample_location_row])] [sample_location_row]
           H1 H2 H3).
Defined.

Lemma history_lookup_sets_new_established_or_none_witness :
  dict_lookup (tool_map sample_agent) "check_appointment_history"
    = Some (PFunc "check_appointment_history")
  /\ let res := execute_tool (tool_functions (rows_post [visit "2023-03-01"]) sample_cutoff
                                (constant_handler PNone))
                  sample_agent
                  (mkToolCall "check_appointment_history"
                     [("patient_id", PInt 1); ("provider_id", PInt 7)]) in
     (exists e, snd res = error_result ("Tool execution failed: " ++ e)
                /\ booking (fst res) = booking sample_agent)
     \/ (exists t, py_get (snd res) "appointment_type" = Ok t
         /\ booking (fst res) = set_appointment_type t (booking sample_agent)
         /\ (t = PStr "NEW" \/ t = PStr "ESTABLISHED"
             \/ (t = PNone /\ exists msg, snd res = error_result msg))).
Proof.
  assert (H : dict_lookup (tool_map sample_agent) "check_appointment_history"
              = Some (PFunc "check_appointment_history")) by reflexivity.
  split; [exact H|].
  exact (history_lookup_sets_new_established_or_none (rows_post [visit "2023-03-01"])
           sample_cutoff (constant_handler PNone) sample_agent
           [("patient_id", PInt 1); ("provider_id", PInt 7)] H).
Defined.

Lemma commit_request_reaches_server_unchanged_witness :
  to_booking_request zero_id_booking
    = Ok [("patient_id", PInt 1); ("provider_id", PInt 0); ("department_id", PInt 3);
          ("appointment_type", PStr "NEW"); ("date", PStr "2024-06-03");
          ("appointment_time", PStr "14:00"); ("notes", PStr EmptyString)]
  /\ tool_functions (rows_post []) sample_cutoff (constant_handler PNone) []
       "book_appointment"
       [("patient_id", PInt 1); ("provider_id", PInt 0); ("department_id", PInt 3);
        ("appointment_type", PStr "NEW"); ("date", PStr "2024-06-03");
        ("appointment_time", PStr "14:00"); ("notes", PStr EmptyString)]
     = Ok (book_result (rows_post [] [] book_url
             (PDict [("patient_id", PInt 1); ("provider_id", PInt 0); ("department_id", PInt 3);
                     ("appointment_type", PStr "NEW"); ("date", PStr "2024-06-03");
                     ("appointment_time", PStr "14:00"); ("notes", PStr EmptyString)]))).
Proof.
  assert (H : to_booking_request zero_id_booking
    = Ok [("patient_id", PInt 1); ("provider_id", PInt 0); ("department_id", PInt 3);
          ("appointment_type", PStr "NEW"); ("date", PStr "2024-06-03");
          ("appointment_time", PStr "14:00"); ("notes", PStr EmptyString)]) by reflexivity.
  split; [exact H|].
  exact (commit_request_reaches_server_unchanged (rows_post []) sample_cutoff
           (constant_handler PNone) [] zero_id_booking _ H).
Defined.

Lemma insurance_accepted_only_for_accepted_first_match_witness :
  check_insurance (rows_post [PDict [("id", PInt 1); ("name", PStr "Aetna");
                                     ("accepted", PBool true)]] [])
    (PStr "aetna")
  = PDict [("accepted", PBool true); ("matched_name", PStr "Aetna");
           ("message", PStr "Yes, Aetna is accepted")]
  /\ exists resp data results first accepted,
    rows_post [PDict [("id", PInt 1); ("name", PStr "Aetna"); ("accepted", PBool true)]] []
      query_url (PDict [("sql", PStr insurance_sql);
                        ("params", PList [PStr ("%" ++ py_str (PStr "aetna") ++ "%")])])
      = Ok resp
    /\ status_is_200 resp = true /\ response_json resp = Ok data
    /\ py_get_default data "results" (PList []) = Ok results
    /\ py_index0 results = Ok first /\ py_getitem first "accepted" = Ok accepted
    /\ truthy accepted = true.
Proof.
  assert (H : check_insurance (rows_post [PDict [("id", PInt 1); ("name", PStr "Aetna");
                                                 ("accepted", PBool true)]] [])
                (PStr "aetna")
              = PDict [("accepted", PBool true); ("matched_name", PStr "Aetna");
                       ("message", PStr "Yes, Aetna is accepted")]) by reflexivity.
  split; [exact H|].
  exact (insurance_accepted_only_for_accepted_first_match _ (PStr "aetna") _ H).
Defined.

